(** * kube-arangodb: the ServiceMonitor reconciler and the Unavailable
      backup-state handler

    A shallow embedding of two functions of the operator,
    - [resources.EnsureServiceMonitor] (with [makeEndpoint] and
      [EnsureMonitoringClient]), package [resources], and
    - [backup.stateUnavailableHandler], package [backup],
    followed by the properties that their specification states about them.

    Go packages are rendered as modules ([driver], [backupApi], [backup],
    [metav1], [coreosv1], [api], [clientv1], [resources]); a Go
    [(value, error)] pair is a [result]; a nil-able pointer is an [option]; a
    Go [map[string]string] is a [gmap string string]. Logging has no effect
    on results and is left out. *)

From stdpp Require Import base option list gmap strings.
From Stdlib Require Import NArith ZArith.

Open Scope string_scope.

(** ** Error values *)

(** Reasons carried by a Kubernetes API status error (apimachinery). *)
Inductive StatusReason : Type :=
| StatusReasonNotFound
| StatusReasonAlreadyExists
| StatusReasonConflict
| StatusReasonInvalid
| StatusReasonTimeout
| StatusReasonInternalError.

(** The values of Go's [error] interface that occur in the two packages:
    failures reported by the Kubernetes API client, failures reported by the
    database driver, plain messages, the stack annotation of
    [errors.WithStack], and the two wrappers of the backup package's error
    classifier. *)
Inductive error : Type :=
| StatusError (reason : StatusReason)
| ArangoError (code : Z)
| errorString (message : string)
| withStack (cause : error)
| temporaryError (cause : error)
| fatalError (message : string).

(** A Go [(value, error)] return pair of which exactly one side is set. *)
Inductive result (T : Type) : Type :=
| Ok (value : T)
| Err (err : error).
Arguments Ok {T} value.
Arguments Err {T} err.

(** [errors.Cause]: strips stack annotations. *)
Fixpoint Cause (err : error) : error :=
  match err with
  | withStack cause => Cause cause
  | _ => err
  end.

(** Modelled from the spec: the Error Classifier (section 4.3), whose
    declarations are outside the listed sources. It has two kinds, Fatal and
    Temporary; an error that went through neither wrapper has no kind. The
    kind is read through stack annotations. *)
Inductive ErrorKind : Type := Fatal | Temporary.

Definition classify (err : error) : option ErrorKind :=
  match Cause err with
  | temporaryError _ => Some Temporary
  | fatalError _ => Some Fatal
  | _ => None
  end.

(** ** Package driver (the database driver's backup API) *)
Module driver.

Definition BackupID : Type := string.

(** The fields of [driver.BackupMeta] that the handler and its
    specification refer to. The two counters are Go [uint]s. *)
Record BackupMeta : Type := {
  ID : BackupID;
  Available : bool;
  NumberOfDBServers : N;
  NumberOfPiecesPresent : N
}.

(** [driver.IsNotFound]: the cause is a driver error with HTTP code 404. *)
Definition IsNotFound (err : error) : bool :=
  match Cause err with
  | ArangoError code => Z.eqb code 404
  | _ => false
  end.

End driver.

(** ** Package backupApi (the ArangoBackup custom resource) *)
Module backupApi.

(** The [BackupState] enumeration of the spec's data model; the handler
    names [ArangoBackupStateDeleted], [ArangoBackupStateUnavailable] and
    [ArangoBackupStateReady]. *)
Inductive BackupState : Type :=
| ArangoBackupStateNew
| ArangoBackupStatePending
| ArangoBackupStateUnavailable
| ArangoBackupStateReady
| ArangoBackupStateDeleted
| ArangoBackupStateFailed.

(** The persisted status. [Backup] is a pointer ([None] is nil) to the last
    stored snapshot, whose [driver.ID] identifies the backup. *)
Record ArangoBackupStatus : Type := {
  State : BackupState;
  Message : string;
  Available : bool;
  Backup : option driver.BackupMeta
}.

Record ArangoBackup : Type := {
  Name : string;
  Namespace : string;
  DeploymentName : string;
  Status : ArangoBackupStatus
}.

End backupApi.

(** ** Package backup: the state handler *)
Module backup.
Import backupApi.

(** The deployment that owns a backup, as far as the handler uses it. *)
Record ArangoDeployment : Type := { deploymentName : string }.

(** The External Status Source: [Get(backupID)]. *)
Record ArangoBackupClient : Type := {
  Get : driver.BackupID -> result driver.BackupMeta
}.

(** The handler's collaborators: [getArangoDeploymentObject] (declared
    outside the listed sources, so any outcome is allowed, with an error
    that is passed through as it is) and the client factory. *)
Record handler : Type := {
  getArangoDeploymentObject : ArangoBackup -> result ArangoDeployment;
  arangoClientFactory :
    ArangoDeployment -> ArangoBackup -> result ArangoBackupClient
}.

(** Modelled from the spec: the two constructors of the Error Classifier
    (section 4.3), declared outside the listed sources. *)
Definition newTemporaryError (err : error) : error := temporaryError err.
Definition newFatalErrorf (message : string) : error := fatalError message.

(** Modelled from the spec: the Status Update Composer (section 4.4),
    declared outside the listed sources. A status update is an ordered list
    of field mutations that is applied, in order, to a copy of the record's
    current status; each mutation writes its own field (the state mutation
    also carries the message given with it). *)
Definition updateStatusFunc : Type := ArangoBackupStatus -> ArangoBackupStatus.

Definition updateStatusState (state : BackupState) (message : string)
  : updateStatusFunc :=
  fun status =>
    {| State := state; Message := message;
       Available := Available status; Backup := Backup status |}.

Definition updateStatusAvailable (available : bool) : updateStatusFunc :=
  fun status =>
    {| State := State status; Message := Message status;
       Available := available; Backup := Backup status |}.

Definition updateStatusBackup (backupMeta : driver.BackupMeta)
  : updateStatusFunc :=
  fun status =>
    {| State := State status; Message := Message status;
       Available := Available status; Backup := Some backupMeta |}.

Definition updateStatus (backup : ArangoBackup)
    (update : list updateStatusFunc) : ArangoBackupStatus :=
  fold_left (fun status u => u status) update (Status backup).

Definition wrapUpdateStatus (backup : ArangoBackup)
    (update : list updateStatusFunc) : result ArangoBackupStatus :=
  Ok (updateStatus backup update).

(** [stateUnavailableHandler], statement by statement. *)
Definition stateUnavailableHandler (h : handler) (backup : ArangoBackup)
  : result ArangoBackupStatus :=
  match getArangoDeploymentObject h backup with
  | Err err => Err err
  | Ok deployment =>
    match arangoClientFactory h deployment backup with
    | Err err => Err (newTemporaryError err)
    | Ok client =>
      match Backup (Status backup) with
      | None => Err (newFatalErrorf "missing field .status.backup")
      | Some statusBackup =>
        match Get client (driver.ID statusBackup) with
        | Err err =>
          if driver.IsNotFound err then
            wrapUpdateStatus backup
              [updateStatusState ArangoBackupStateDeleted "";
               updateStatusAvailable false]
          else
            wrapUpdateStatus backup
              [updateStatusAvailable false]
        | Ok backupMeta =>
          if negb (driver.Available backupMeta)
             || negb (N.eqb (driver.NumberOfDBServers backupMeta)
                            (driver.NumberOfPiecesPresent backupMeta))
          then
            wrapUpdateStatus backup
              [updateStatusState ArangoBackupStateUnavailable "";
               updateStatusBackup backupMeta;
               updateStatusAvailable false]
          else
            wrapUpdateStatus backup
              [updateStatusBackup backupMeta;
               updateStatusState ArangoBackupStateReady "";
               updateStatusAvailable true]
        end
      end
    end
  end.

End backup.

(** ** Package metav1 (object metadata) *)
Module metav1.

Record OwnerReference : Type := {
  APIVersion : string;
  Kind : string;
  OwnerName : string;
  UID : string
}.

Record ObjectMeta : Type := {
  Name : string;
  Labels : gmap string string;
  OwnerReferences : list OwnerReference
}.

Record LabelSelector : Type := {
  MatchLabels : gmap string string
}.

End metav1.

(** ** Package coreosv1 (the ServiceMonitor resource) *)
Module coreosv1.

Record TLSConfig : Type := {
  CAFile : string;
  InsecureSkipVerify : bool
}.

(** [TLSConfig] is a pointer field, nil when the literal omits it. *)
Record Endpoint : Type := {
  Port : string;
  Interval : string;
  Scheme : string;
  TLSConfig_ : option TLSConfig
}.

Record ServiceMonitorSpec : Type := {
  JobLabel : string;
  Endpoints : list Endpoint;
  Selector : metav1.LabelSelector
}.

Record ServiceMonitor : Type := {
  ObjectMeta : metav1.ObjectMeta;
  Spec : ServiceMonitorSpec
}.

End coreosv1.

(** ** Package api (the deployment object and its spec) *)
Module api.

Record MetricsSpec : Type := { IsEnabled : bool }.
Record TLSSpec : Type := { GetCASecretName : string }.

(** The three accessors of the deployment spec that the reconciler calls:
    [spec.Metrics.IsEnabled()], [spec.IsSecure()] and
    [spec.TLS.GetCASecretName()]. *)
Record DeploymentSpec : Type := {
  Metrics : MetricsSpec;
  IsSecure : bool;
  TLS : TLSSpec
}.

(** [GetName()], [GetNamespace()] and [AsOwner()] of the deployment. *)
Record ArangoDeployment : Type := {
  GetName : string;
  GetNamespace : string;
  AsOwner : metav1.OwnerReference
}.

End api.

(** ** Package clientv1 (the External Resource Client) *)
Module clientv1.
Import coreosv1.

(** The ServiceMonitor client of one namespace. Each operation reads and
    may change the cluster, whose state has type [W]; nothing is assumed
    about what an operation answers. *)
Record ServiceMonitorInterface (W : Type) : Type := {
  Get : string -> W -> result ServiceMonitor * W;
  Create : ServiceMonitor -> W -> result ServiceMonitor * W;
  Delete : string -> W -> option error * W
}.
Arguments Get {W}.
Arguments Create {W}.
Arguments Delete {W}.

Record MonitoringV1Client (W : Type) : Type := {
  ServiceMonitors : string -> ServiceMonitorInterface W
}.
Arguments ServiceMonitors {W}.

End clientv1.

(** ** Package resources: the reconciler *)
Module resources.
Import coreosv1 clientv1.

Record RestConfig : Type := { Host : string }.

(** What the reconciler uses and the listed sources do not declare: the
    constants and helpers of package [k8sutil], the [maskAny] of package
    [resources], and the constructors of the client library. They are
    parameters of the embedding; every theorem of the reconciler holds for
    all of them. *)
Class Imports (W : Type) : Type := {
  LabelKeyArangoDeployment : string;
  LabelKeyApp : string;
  AppName : string;
  CreateExporterClientServiceName : string -> string;
  IsNotFound : error -> bool;
  InClusterConfig : W -> result RestConfig;
  GetCASecret : W -> string -> string -> result string;
  NewForConfig : RestConfig -> result (MonitoringV1Client W);
  maskAny : error -> error
}.

(** [r.context] *)
Record Context : Type := {
  GetAPIObject : api.ArangoDeployment;
  GetSpec : api.DeploymentSpec;
  GetNamespace : string
}.

Record Resources (W : Type) : Type := {
  context : Context;
  monitoringClient : option (MonitoringV1Client W)
}.
Arguments context {W}.
Arguments monitoringClient {W}.

(** One call on the ServiceMonitor client with what the client answered. *)
Inductive Call : Type :=
| CallGet (ns name : string) (answer : result ServiceMonitor)
| CallCreate (ns : string) (smon : ServiceMonitor)
    (answer : result ServiceMonitor)
| CallDelete (ns name : string) (answer : option error).

Definition isCreate (c : Call) : bool :=
  match c with CallCreate _ _ _ => true | _ => false end.
Definition isDelete (c : Call) : bool :=
  match c with CallDelete _ _ _ => true | _ => false end.
Definition isMutating (c : Call) : bool := isCreate c || isDelete c.

(** The state a method of [*Resources] runs in: the receiver, the cluster
    and the calls made on the ServiceMonitor client so far. *)
Record Exec (W : Type) : Type := {
  receiver : Resources W;
  cluster : W;
  calls : list Call
}.
Arguments receiver {W}.
Arguments cluster {W}.
Arguments calls {W}.

Definition M (W A : Type) : Type := Exec W -> A * Exec W.

Definition ret {W A} (a : A) : M W A := fun s => (a, s).
Definition bind {W A B} (m : M W A) (k : A -> M W B) : M W B :=
  fun s => let '(a, s') := m s in k a s'.

Declare Scope go_scope.
Delimit Scope go_scope with go.
Notation "x <- m ;; k" := (bind m (fun x => k))
  (at level 100, m at next level, right associativity) : go_scope.

Definition getReceiver {W} : M W (Resources W) := fun s => (receiver s, s).
Definition getCluster {W} : M W W := fun s => (cluster s, s).
Definition setMonitoringClient {W} (mClient : MonitoringV1Client W)
  : M W unit :=
  fun s =>
    (tt, {| receiver := {| context := context (receiver s);
                           monitoringClient := Some mClient |};
            cluster := cluster s; calls := calls s |}).

(** Runs one client operation on the cluster and records it. *)
Definition call {W A} (op : W -> A * W) (record : A -> Call) : M W A :=
  fun s =>
    let '(answer, w) := op (cluster s) in
    (answer, {| receiver := receiver s; cluster := w;
                calls := calls s ++ [record answer] |}).

Section Reconciler.
Context {W : Type} {I : Imports W}.
Open Scope go_scope.

Definition LabelsForExporterServiceMonitor (deploymentName : string)
  : gmap string string :=
  {[ LabelKeyArangoDeployment := deploymentName;
     LabelKeyApp := AppName;
     "context" := "metrics" ]}.

Definition LabelsForExporterServiceMonitorSelector
    (deploymentName : string) : gmap string string :=
  {[ LabelKeyArangoDeployment := deploymentName;
     LabelKeyApp := AppName ]}.

Definition EnsureMonitoringClient : M W (result (MonitoringV1Client W)) :=
  r <- getReceiver ;;
  match monitoringClient r with
  | Some mClient => ret (Ok mClient)
  | None =>
    w <- getCluster ;;
    match InClusterConfig w with
    | Err err => ret (Err (maskAny err))
    | Ok restConfig =>
      match NewForConfig restConfig with
      | Err err => ret (Err (maskAny err))
      | Ok mClient =>
        _ <- setMonitoringClient mClient ;;
        ret (Ok mClient)
      end
    end
  end.

Definition makeEndpoint (isSecure : bool) : M W Endpoint :=
  if isSecure then
    r <- getReceiver ;;
    w <- getCluster ;;
    let ns := GetNamespace (context r) in
    let spec := GetSpec (context r) in
    let secretName := api.GetCASecretName (api.TLS spec) in
    let tlsconfig :=
      match GetCASecret w ns secretName with
      | Ok cert => {| CAFile := cert; InsecureSkipVerify := false |}
      | Err _ => {| CAFile := ""; InsecureSkipVerify := true |}
      end in
    ret {| Port := "exporter"; Interval := "10s"; Scheme := "https";
           TLSConfig_ := Some tlsconfig |}
  else
    ret {| Port := "exporter"; Interval := "10s"; Scheme := "http";
           TLSConfig_ := None |}.

Definition EnsureServiceMonitor : M W (option error) :=
  r <- getReceiver ;;
  let apiObject := GetAPIObject (context r) in
  let deploymentName := api.GetName apiObject in
  let ns := api.GetNamespace apiObject in
  let owner := api.AsOwner apiObject in
  let spec := GetSpec (context r) in
  let wantMetrics := api.IsEnabled (api.Metrics spec) in
  let serviceMonitorName :=
    CreateExporterClientServiceName deploymentName in
  mc <- EnsureMonitoringClient ;;
  match mc with
  | Err err => ret (Some (maskAny err))
  | Ok mClient =>
    let serviceMonitors := ServiceMonitors mClient ns in
    got <- call (Get serviceMonitors serviceMonitorName)
                (CallGet ns serviceMonitorName) ;;
    match got with
    | Err err =>
      if IsNotFound err then
        if negb wantMetrics then ret None
        else
          endpoint <- makeEndpoint (api.IsSecure spec) ;;
          let smon :=
            {| ObjectMeta :=
                 {| metav1.Name := serviceMonitorName;
                    metav1.Labels :=
                      LabelsForExporterServiceMonitor deploymentName;
                    metav1.OwnerReferences := [owner] |};
               Spec :=
                 {| JobLabel := "k8s-app";
                    Endpoints := [endpoint];
                    Selector :=
                      {| metav1.MatchLabels :=
                           LabelsForExporterServiceMonitorSelector
                             deploymentName |} |} |} in
          created <- call (Create serviceMonitors smon)
                          (CallCreate ns smon) ;;
          match created with
          | Err err => ret (Some (maskAny err))
          | Ok _ => ret None
          end
      else ret (Some (maskAny err))
    | Ok _ =>
      if wantMetrics then ret None
      else
        deleted <- call (Delete serviceMonitors serviceMonitorName)
                        (CallDelete ns serviceMonitorName) ;;
        match deleted with
        | None => ret None
        | Some err => ret (Some (maskAny err))
        end
    end
  end.

End Reconciler.

(** A fresh run: the receiver and the cluster, no call made yet. *)
Definition start {W} (r : Resources W) (w : W) : Exec W :=
  {| receiver := r; cluster := w; calls := [] |}.

End resources.

(** ** Concrete collaborators, used to run the two functions on examples *)
Module fixtures.
Import backupApi backup.

Definition theDeployment : ArangoDeployment :=
  {| deploymentName := "cluster-a" |}.

(** A status source that gives the same answer to every lookup. *)
Definition answering (answer : result driver.BackupMeta)
  : ArangoBackupClient :=
  {| Get := fun _ => answer |}.

(** A handler whose deployment and client are available. *)
Definition reachable (answer : result driver.BackupMeta) : handler :=
  {| getArangoDeploymentObject := fun _ => Ok theDeployment;
     arangoClientFactory := fun _ _ => Ok (answering answer) |}.

(** A handler whose client factory fails. *)
Definition unreachable : handler :=
  {| getArangoDeploymentObject := fun _ => Ok theDeployment;
     arangoClientFactory :=
       fun _ _ => Err (errorString "connection refused") |}.

Definition meta (available : bool) (servers pieces : N)
  : driver.BackupMeta :=
  {| driver.ID := "backup-1"; driver.Available := available;
     driver.NumberOfDBServers := servers;
     driver.NumberOfPiecesPresent := pieces |}.

(** A record in state Unavailable with the given stored snapshot. *)
Definition unavailableBackup (stored : option driver.BackupMeta)
  : ArangoBackup :=
  {| Name := "nightly"; Namespace := "default";
     DeploymentName := "cluster-a";
     Status := {| State := ArangoBackupStateUnavailable; Message := "";
                  Available := false; Backup := stored |} |}.

End fixtures.

(** Collaborators of the reconciler whose answers are fixed in advance. The
    cluster has no state of its own ([unit]): what another actor did to it
    between two calls shows in the answers. *)
Module cluster_fixtures.
Import coreosv1 clientv1 resources.

Definition scripted (got created : result ServiceMonitor)
    (deleted : option error) : MonitoringV1Client unit :=
  {| ServiceMonitors := fun _ =>
       {| Get := fun _ w => (got, w);
          Create := fun _ w => (created, w);
          Delete := fun _ w => (deleted, w) |} |}.

(** A choice for the declarations that the reconciler imports: [maskAny]
    annotates the error with a stack and keeps its cause, [IsNotFound]
    reads the reason of the cause, and the CA secret lookup answers
    [ca]. *)
Definition imports (ca : result string) : Imports unit :=
  {| LabelKeyArangoDeployment := "arango_deployment";
     LabelKeyApp := "app";
     AppName := "arangodb";
     CreateExporterClientServiceName := fun name => name +:+ "-exporter";
     IsNotFound := fun err =>
       match Cause err with
       | StatusError StatusReasonNotFound => true
       | _ => false
       end;
     InClusterConfig := fun _ => Err (errorString "not running in a pod");
     GetCASecret := fun _ _ _ => ca;
     NewForConfig := fun _ => Err (errorString "no configuration");
     maskAny := withStack |}.

(** The imports of the examples: the CA secret cannot be read. *)
#[export] Instance noSecret : Imports unit :=
  imports (Err (StatusError StatusReasonNotFound)).

Definition deployment (metrics secure : bool) : Context :=
  {| GetAPIObject :=
       {| api.GetName := "cluster-a"; api.GetNamespace := "default";
          api.AsOwner :=
            {| metav1.APIVersion := "database.arangodb.com/v1alpha";
               metav1.Kind := "ArangoDeployment";
               metav1.OwnerName := "cluster-a";
               metav1.UID := "7f1c" |} |};
     GetSpec :=
       {| api.Metrics := {| api.IsEnabled := metrics |};
          api.IsSecure := secure;
          api.TLS := {| api.GetCASecretName := "cluster-a-ca" |} |};
     GetNamespace := "default" |}.

(** A receiver that already holds its monitoring client. *)
Definition withClient (metrics secure : bool)
    (mClient : MonitoringV1Client unit) : Resources unit :=
  {| context := deployment metrics secure;
     monitoringClient := Some mClient |}.

(** A monitor as the cluster may hold it. *)
Definition monitor : ServiceMonitor :=
  {| ObjectMeta :=
       {| metav1.Name := "cluster-a-exporter"; metav1.Labels := ∅;
          metav1.OwnerReferences := [] |};
     Spec :=
       {| JobLabel := "k8s-app"; Endpoints := [];
          Selector := {| metav1.MatchLabels := ∅ |} |} |}.

End cluster_fixtures.

(** A cluster that keeps its ServiceMonitors and secrets in memory and
    answers every call from them: a [Get] or [Delete] of a missing monitor is
    answered not-found, a [Create] of an existing one already-exists. *)
Module memory_cluster.
Import coreosv1 clientv1 resources.

Record Cluster : Type := {
  monitors : gmap (string * string) ServiceMonitor;
  secrets : gmap (string * string) string
}.

Definition serviceMonitors (ns : string) : ServiceMonitorInterface Cluster :=
  {| Get := fun name w =>
       match monitors w !! (ns, name) with
       | Some found => (Ok found, w)
       | None => (Err (StatusError StatusReasonNotFound), w)
       end;
     Create := fun smon w =>
       let name := metav1.Name (ObjectMeta smon) in
       match monitors w !! (ns, name) with
       | Some _ => (Err (StatusError StatusReasonAlreadyExists), w)
       | None =>
         (Ok smon, {| monitors := <[(ns, name) := smon]> (monitors w);
                      secrets := secrets w |})
       end;
     Delete := fun name w =>
       match monitors w !! (ns, name) with
       | Some _ =>
         (None, {| monitors := delete (ns, name) (monitors w);
                   secrets := secrets w |})
       | None => (Some (StatusError StatusReasonNotFound), w)
       end |}.

Definition mClient : MonitoringV1Client Cluster :=
  {| ServiceMonitors := serviceMonitors |}.

#[export] Instance inMemory : Imports Cluster :=
  {| LabelKeyArangoDeployment := "arango_deployment";
     LabelKeyApp := "app";
     AppName := "arangodb";
     CreateExporterClientServiceName := fun name => name +:+ "-exporter";
     IsNotFound := fun err =>
       match Cause err with
       | StatusError StatusReasonNotFound => true
       | _ => false
       end;
     InClusterConfig := fun _ => Ok {| Host := "kubernetes.default.svc" |};
     GetCASecret := fun w ns name =>
       match secrets w !! (ns, name) with
       | Some cert => Ok cert
       | None => Err (StatusError StatusReasonNotFound)
       end;
     NewForConfig := fun _ => Ok mClient;
     maskAny := withStack |}.

(** A receiver that has not yet asked for its monitoring client. *)
Definition fresh (context : Context) : Resources Cluster :=
  {| context := context; monitoringClient := None |}.

End memory_cluster.

(** ** Vocabulary of the properties *)
Module statements.
Import backupApi backup.

(** The test of the handler's last branch, as a proposition. *)
Definition complete (backupMeta : driver.BackupMeta) : Prop :=
  driver.Available backupMeta = true /\
  driver.NumberOfDBServers backupMeta
  = driver.NumberOfPiecesPresent backupMeta.

(** Every record in state Unavailable without a stored backup makes the
    handler return an error of kind Fatal. *)
Definition missing_backup_always_fatal : Prop :=
  forall h backup,
    State (Status backup) = ArangoBackupStateUnavailable ->
    Backup (Status backup) = None ->
    exists err,
      stateUnavailableHandler h backup = Err err /\
      classify err = Some Fatal.

(** A validation or conflict failure reported by the client. *)
Definition isValidationOrConflict (err : error) : bool :=
  match Cause err with
  | StatusError StatusReasonInvalid
  | StatusError StatusReasonConflict
  | StatusError StatusReasonAlreadyExists => true
  | _ => false
  end.

Import coreosv1 clientv1 resources.

Section Reconciler.
Context {W : Type} {I : Imports W}.

(** One invocation of [EnsureServiceMonitor] from a fresh run: what it
    returns and the calls it made on the ServiceMonitor client. *)
Definition outcome (r : Resources W) (w : W) : option error :=
  (EnsureServiceMonitor (start r w)).1.
Definition trace (r : Resources W) (w : W) : list Call :=
  calls (EnsureServiceMonitor (start r w)).2.

(** The intent and the identity of the resource, read off the receiver. *)
Definition wantMetrics (r : Resources W) : bool :=
  api.IsEnabled (api.Metrics (GetSpec (context r))).
Definition namespace (r : Resources W) : string :=
  api.GetNamespace (GetAPIObject (context r)).
Definition serviceMonitorName (r : Resources W) : string :=
  CreateExporterClientServiceName (api.GetName (GetAPIObject (context r))).

(** The monitoring client the invocation works with, and what that
    client answers to the [Get] of the resource. *)
Definition client (r : Resources W) (w : W)
  : result (MonitoringV1Client W) :=
  (EnsureMonitoringClient (start r w)).1.
Definition observed (mClient : MonitoringV1Client W) (r : Resources W)
    (w : W) : result ServiceMonitor :=
  (Get (ServiceMonitors mClient (namespace r)) (serviceMonitorName r) w).1.

(** The external state matches the intent: the resource is absent and
    metrics are off, or it is present and metrics are on. *)
Definition matches (mClient : MonitoringV1Client W) (r : Resources W)
    (w : W) : Prop :=
  match observed mClient r w with
  | Err err => IsNotFound err = true /\ wantMetrics r = false
  | Ok _ => wantMetrics r = true
  end.

(** The six ways an invocation can go, each with its return value and
    its calls. *)
Inductive Run (r : Resources W) (w : W)
  : option error -> list Call -> Prop :=
| RunNoClient err :
    client r w = Err err ->
    Run r w (Some (maskAny err)) []
| RunGetFailed mClient err :
    client r w = Ok mClient ->
    observed mClient r w = Err err ->
    IsNotFound err = false ->
    Run r w (Some (maskAny err))
        [CallGet (namespace r) (serviceMonitorName r) (Err err)]
| RunAbsentUnwanted mClient err :
    client r w = Ok mClient ->
    observed mClient r w = Err err ->
    IsNotFound err = true ->
    wantMetrics r = false ->
    Run r w None
        [CallGet (namespace r) (serviceMonitorName r) (Err err)]
| RunCreate mClient err smon answer :
    client r w = Ok mClient ->
    observed mClient r w = Err err ->
    IsNotFound err = true ->
    wantMetrics r = true ->
    Run r w
        match answer with
        | Ok _ => None
        | Err failure => Some (maskAny failure)
        end
        [CallGet (namespace r) (serviceMonitorName r) (Err err);
         CallCreate (namespace r) smon answer]
| RunPresentWanted mClient found :
    client r w = Ok mClient ->
    observed mClient r w = Ok found ->
    wantMetrics r = true ->
    Run r w None
        [CallGet (namespace r) (serviceMonitorName r) (Ok found)]
| RunDelete mClient found answer :
    client r w = Ok mClient ->
    observed mClient r w = Ok found ->
    wantMetrics r = false ->
    Run r w
        match answer with
        | None => None
        | Some failure => Some (maskAny failure)
        end
        [CallGet (namespace r) (serviceMonitorName r) (Ok found);
         CallDelete (namespace r) (serviceMonitorName r) answer].

(** A failed Create surfaces with kind Fatal if the client reported a
    validation or conflict failure, and with kind Temporary otherwise. *)
Definition create_failure_classified : Prop :=
  forall (r : Resources W) (w : W) ns smon err,
    CallCreate ns smon (Err err) ∈ trace r w ->
    exists surfaced,
      outcome r w = Some surfaced /\
      classify surfaced
      = Some (if isValidationOrConflict err then Fatal else Temporary).

(** A Delete that the client answers with not-found makes the invocation
    succeed; any other failed Delete surfaces with kind Temporary. *)
Definition delete_miss_is_success : Prop :=
  forall (r : Resources W) (w : W) ns name err,
    CallDelete ns name (Some err) ∈ trace r w ->
    if IsNotFound err then outcome r w = None
    else exists surfaced,
        outcome r w = Some surfaced /\
        classify surfaced = Some Temporary.

End Reconciler.

End statements.

(** ** Vocabulary of the further properties of the reconciler *)
Module reconciler_statements.
Import coreosv1 clientv1 resources statements.

Section Reconciler.
Context {W : Type} {I : Imports W}.

(** The ServiceMonitor that [EnsureServiceMonitor] hands to [Create], around
    the endpoint it was given. *)
Definition newServiceMonitor (r : Resources W) (endpoint : Endpoint)
  : ServiceMonitor :=
  let apiObject := GetAPIObject (context r) in
  let deploymentName := api.GetName apiObject in
  {| ObjectMeta :=
       {| metav1.Name := serviceMonitorName r;
          metav1.Labels := LabelsForExporterServiceMonitor deploymentName;
          metav1.OwnerReferences := [api.AsOwner apiObject] |};
     Spec :=
       {| JobLabel := "k8s-app";
          Endpoints := [endpoint];
          Selector :=
            {| metav1.MatchLabels :=
                 LabelsForExporterServiceMonitorSelector deploymentName |} |}
  |}.

(** The endpoint that [makeEndpoint] builds for the receiver on cluster
    [w]. *)
Definition endpointFor (r : Resources W) (w : W) : Endpoint :=
  (makeEndpoint (api.IsSecure (GetSpec (context r))) (start r w)).1.

(** The ServiceMonitor client of the deployment's namespace. *)
Definition serviceMonitorsOf (mClient : MonitoringV1Client W)
    (r : Resources W) : ServiceMonitorInterface W :=
  ServiceMonitors mClient (namespace r).

(** The receiver once it holds the client [mClient]. *)
Definition holding (r : Resources W) (mClient : MonitoringV1Client W)
  : Resources W :=
  {| context := context r; monitoringClient := Some mClient |}.

(** A call is about the deployment's own monitor: its namespace is the
    deployment's and its name (for a [Create], the name in the metadata of
    the monitor) is the monitor's. *)
Definition addresses (r : Resources W) (c : Call) : Prop :=
  match c with
  | CallGet ns name _ | CallDelete ns name _ =>
    ns = namespace r /\ name = serviceMonitorName r
  | CallCreate ns smon _ =>
    ns = namespace r /\
    metav1.Name (ObjectMeta smon) = serviceMonitorName r
  end.

(** The ways an invocation can go, each with its return value and the state
    it ends in. *)
Inductive Final (r : Resources W) (w : W)
  : option error -> Exec W -> Prop :=
| FinalNoClient err :
    client r w = Err err ->
    Final r w (Some (maskAny err)) (start r w)
| FinalGetFailed mClient err w1 :
    client r w = Ok mClient ->
    Get (serviceMonitorsOf mClient r) (serviceMonitorName r) w
    = (Err err, w1) ->
    IsNotFound err = false ->
    Final r w (Some (maskAny err))
      {| receiver := holding r mClient; cluster := w1;
         calls := [CallGet (namespace r) (serviceMonitorName r) (Err err)] |}
| FinalAbsentUnwanted mClient err w1 :
    client r w = Ok mClient ->
    Get (serviceMonitorsOf mClient r) (serviceMonitorName r) w
    = (Err err, w1) ->
    IsNotFound err = true ->
    wantMetrics r = false ->
    Final r w None
      {| receiver := holding r mClient; cluster := w1;
         calls := [CallGet (namespace r) (serviceMonitorName r) (Err err)] |}
| FinalCreate mClient err w1 answer w2 :
    client r w = Ok mClient ->
    Get (serviceMonitorsOf mClient r) (serviceMonitorName r) w
    = (Err err, w1) ->
    IsNotFound err = true ->
    wantMetrics r = true ->
    Create (serviceMonitorsOf mClient r)
      (newServiceMonitor r (endpointFor r w1)) w1
    = (answer, w2) ->
    Final r w
      match answer with
      | Ok _ => None
      | Err failure => Some (maskAny failure)
      end
      {| receiver := holding r mClient; cluster := w2;
         calls := [CallGet (namespace r) (serviceMonitorName r) (Err err);
                   CallCreate (namespace r)
                     (newServiceMonitor r (endpointFor r w1)) answer] |}
| FinalPresentWanted mClient found w1 :
    client r w = Ok mClient ->
    Get (serviceMonitorsOf mClient r) (serviceMonitorName r) w
    = (Ok found, w1) ->
    wantMetrics r = true ->
    Final r w None
      {| receiver := holding r mClient; cluster := w1;
         calls := [CallGet (namespace r) (serviceMonitorName r) (Ok found)] |}
| FinalDelete mClient found w1 answer w2 :
    client r w = Ok mClient ->
    Get (serviceMonitorsOf mClient r) (serviceMonitorName r) w
    = (Ok found, w1) ->
    wantMetrics r = false ->
    Delete (serviceMonitorsOf mClient r) (serviceMonitorName r) w1
    = (answer, w2) ->
    Final r w
      match answer with
      | None => None
      | Some failure => Some (maskAny failure)
      end
      {| receiver := holding r mClient; cluster := w2;
         calls := [CallGet (namespace r) (serviceMonitorName r) (Ok found);
                   CallDelete (namespace r) (serviceMonitorName r) answer] |}.

(** The receiver after the deployment's spec was edited to switch metrics
    on or off; everything else is as it was. *)
Definition withMetrics (enabled : bool) (r : Resources W) : Resources W :=
  {| context :=
       {| GetAPIObject := GetAPIObject (context r);
          GetSpec :=
            {| api.Metrics := {| api.IsEnabled := enabled |};
               api.IsSecure := api.IsSecure (GetSpec (context r));
               api.TLS := api.TLS (GetSpec (context r)) |};
          GetNamespace := GetNamespace (context r) |};
     monitoringClient := monitoringClient r |}.

(** The error a call was answered with, if it was. *)
Definition failureOf (c : Call) : option error :=
  match c with
  | CallGet _ _ (Err err) | CallCreate _ _ (Err err)
  | CallDelete _ _ (Some err) => Some err
  | _ => None
  end.

(** What the reconciler may expect of a ServiceMonitor client that nobody
    else disturbs: a [Get] leaves the cluster as it is, a monitor that was
    created is found under its name, and a monitor that was deleted is
    reported not-found. *)
Record Undisturbed (sm : ServiceMonitorInterface W) : Prop := {
  get_reads :
    forall name w, (Get sm name w).2 = w;
  created_is_found :
    forall smon w created w',
      Create sm smon w = (Ok created, w') ->
      exists found,
        (Get sm (metav1.Name (ObjectMeta smon)) w').1 = Ok found;
  deleted_is_not_found :
    forall name w w',
      Delete sm name w = (None, w') ->
      exists err, (Get sm name w').1 = Err err /\ IsNotFound err = true
}.

End Reconciler.

End reconciler_statements.

(** Further collaborators for examples. *)
Module more_fixtures.
Import backupApi backup coreosv1 clientv1 resources.

(** A status source that answers [hit] for the backup [id] and [miss] for
    every other one. *)
Definition answeringFor (id : driver.BackupID)
    (hit miss : result driver.BackupMeta) : ArangoBackupClient :=
  {| backup.Get :=
       fun asked => if String.eqb asked id then hit else miss |}.

Definition reachableThrough (client : ArangoBackupClient) : handler :=
  {| getArangoDeploymentObject := fun _ => Ok fixtures.theDeployment;
     arangoClientFactory := fun _ _ => Ok client |}.

(** A handler whose deployment cannot be resolved. *)
Definition orphaned : handler :=
  {| getArangoDeploymentObject :=
       fun _ => Err (fatalError "deployment ref is not specified");
     arangoClientFactory :=
       fun _ _ => Ok (fixtures.answering (Err (ArangoError 404))) |}.

(** A receiver, on the scripted cluster, that holds no monitoring client. *)
Definition clientless (metrics secure : bool) : Resources unit :=
  {| context := cluster_fixtures.deployment metrics secure;
     monitoringClient := None |}.

(** The in-memory cluster with nothing in it. *)
Definition emptyCluster : memory_cluster.Cluster :=
  {| memory_cluster.monitors := ∅; memory_cluster.secrets := ∅ |}.

End more_fixtures.

(** * Properties of the Unavailable handler *)
Module backup_properties.
Import backupApi backup statements.

(** What each list of mutations used by the handler does to a status. *)
Lemma updateStatus_deleted backup :
  updateStatus backup
    [updateStatusState ArangoBackupStateDeleted "";
     updateStatusAvailable false]
  = {| State := ArangoBackupStateDeleted; Message := "";
       Available := false; Backup := Backup (Status backup) |}.
Proof. reflexivity. Qed.

Lemma updateStatus_soft_failure backup :
  updateStatus backup [updateStatusAvailable false]
  = {| State := State (Status backup); Message := Message (Status backup);
       Available := false; Backup := Backup (Status backup) |}.
Proof. reflexivity. Qed.

Lemma updateStatus_unavailable backup backupMeta :
  updateStatus backup
    [updateStatusState ArangoBackupStateUnavailable "";
     updateStatusBackup backupMeta;
     updateStatusAvailable false]
  = {| State := ArangoBackupStateUnavailable; Message := "";
       Available := false; Backup := Some backupMeta |}.
Proof. reflexivity. Qed.

Lemma updateStatus_ready backup backupMeta :
  updateStatus backup
    [updateStatusBackup backupMeta;
     updateStatusState ArangoBackupStateReady "";
     updateStatusAvailable true]
  = {| State := ArangoBackupStateReady; Message := "";
       Available := true; Backup := Some backupMeta |}.
Proof. reflexivity. Qed.

Lemma incomplete_test backupMeta :
  negb (driver.Available backupMeta)
  || negb (N.eqb (driver.NumberOfDBServers backupMeta)
                 (driver.NumberOfPiecesPresent backupMeta)) = false
  <-> complete backupMeta.
Proof.
  unfold complete. rewrite orb_false_iff, !negb_false_iff, N.eqb_eq.
  reflexivity.
Qed.

(** The handler after its three preliminary steps: the value it returns
    once the deployment, the client and the stored backup are there. *)
Lemma handler_after_lookup h backup deployment client statusBackup :
  getArangoDeploymentObject h backup = Ok deployment ->
  arangoClientFactory h deployment backup = Ok client ->
  Backup (Status backup) = Some statusBackup ->
  stateUnavailableHandler h backup =
    match Get client (driver.ID statusBackup) with
    | Err err =>
      if driver.IsNotFound err then
        Ok {| State := ArangoBackupStateDeleted; Message := "";
              Available := false; Backup := Backup (Status backup) |}
      else
        Ok {| State := State (Status backup);
              Message := Message (Status backup);
              Available := false; Backup := Backup (Status backup) |}
    | Ok backupMeta =>
      if negb (driver.Available backupMeta)
         || negb (N.eqb (driver.NumberOfDBServers backupMeta)
                        (driver.NumberOfPiecesPresent backupMeta))
      then
        Ok {| State := ArangoBackupStateUnavailable; Message := "";
              Available := false; Backup := Some backupMeta |}
      else
        Ok {| State := ArangoBackupStateReady; Message := "";
              Available := true; Backup := Some backupMeta |}
    end.
Proof.
  intros Hdeployment Hclient Hstored.
  unfold stateUnavailableHandler.
  rewrite Hdeployment, Hclient.
  destruct (Backup (Status backup)) as [stored|] eqn:Hbackup; [|discriminate].
  injection Hstored as ->.
  unfold wrapUpdateStatus.
  rewrite updateStatus_deleted, updateStatus_soft_failure, Hbackup.
  destruct (Get client (driver.ID statusBackup)) as [backupMeta|err];
    [|reflexivity].
  rewrite updateStatus_unavailable, updateStatus_ready.
  reflexivity.
Qed.

(** C1. When the lookup succeeds with [backupMeta], the returned status
    stores [backupMeta]; it has state Unavailable and available false if
    [backupMeta] is not available or its two counts differ, and state Ready
    and available true if it is available and the counts are equal. *)
Theorem lookup_success_applies_table
    h backup deployment client statusBackup backupMeta :
  getArangoDeploymentObject h backup = Ok deployment ->
  arangoClientFactory h deployment backup = Ok client ->
  Backup (Status backup) = Some statusBackup ->
  Get client (driver.ID statusBackup) = Ok backupMeta ->
  exists status,
    stateUnavailableHandler h backup = Ok status /\
    Backup status = Some backupMeta /\
    (driver.Available backupMeta = false \/
     driver.NumberOfDBServers backupMeta
     <> driver.NumberOfPiecesPresent backupMeta ->
     State status = ArangoBackupStateUnavailable /\
     Available status = false) /\
    (driver.Available backupMeta = true /\
     driver.NumberOfDBServers backupMeta
     = driver.NumberOfPiecesPresent backupMeta ->
     State status = ArangoBackupStateReady /\
     Available status = true).
Proof.
  intros Hdeployment Hclient Hstored Hget.
  rewrite (handler_after_lookup _ _ _ _ _ Hdeployment Hclient Hstored), Hget.
  destruct (negb _ || negb _) eqn:Htest.
  - eexists; split; [reflexivity|]. cbn. split; [reflexivity|].
    split; [done|].
    intros Hcomplete. apply incomplete_test in Hcomplete. congruence.
  - eexists; split; [reflexivity|]. cbn. split; [reflexivity|].
    split; [|done].
    apply incomplete_test in Htest. destruct Htest as [Hav Heq].
    intros [Hno | Hne]; congruence.
Qed.

(** Readiness equivalence: available, 3 servers, 3 pieces. *)
Lemma lookup_success_applies_table_witness :
  exists status,
    stateUnavailableHandler
      (fixtures.reachable (Ok (fixtures.meta true 3 3)))
      (fixtures.unavailableBackup (Some (fixtures.meta false 3 1)))
    = Ok status /\
    Backup status = Some (fixtures.meta true 3 3) /\
    (driver.Available (fixtures.meta true 3 3) = false \/
     driver.NumberOfDBServers (fixtures.meta true 3 3)
     <> driver.NumberOfPiecesPresent (fixtures.meta true 3 3) ->
     State status = ArangoBackupStateUnavailable /\
     Available status = false) /\
    (driver.Available (fixtures.meta true 3 3) = true /\
     driver.NumberOfDBServers (fixtures.meta true 3 3)
     = driver.NumberOfPiecesPresent (fixtures.meta true 3 3) ->
     State status = ArangoBackupStateReady /\
     Available status = true).
Proof.
  apply (lookup_success_applies_table
           (fixtures.reachable (Ok (fixtures.meta true 3 3)))
           (fixtures.unavailableBackup (Some (fixtures.meta false 3 1)))
           fixtures.theDeployment
           (fixtures.answering (Ok (fixtures.meta true 3 3)))
           (fixtures.meta false 3 1));
    reflexivity.
Defined.

(** The two rows of the table on the spec's own numbers. *)
Example readiness_equivalence :
  stateUnavailableHandler
    (fixtures.reachable (Ok (fixtures.meta true 3 3)))
    (fixtures.unavailableBackup (Some (fixtures.meta false 3 1)))
  = Ok {| State := ArangoBackupStateReady; Message := "";
          Available := true; Backup := Some (fixtures.meta true 3 3) |}.
Proof. reflexivity. Qed.

Example partial_shard_stays_unavailable :
  stateUnavailableHandler
    (fixtures.reachable (Ok (fixtures.meta true 3 2)))
    (fixtures.unavailableBackup (Some (fixtures.meta false 3 1)))
  = Ok {| State := ArangoBackupStateUnavailable; Message := "";
          Available := false; Backup := Some (fixtures.meta true 3 2) |}.
Proof. reflexivity. Qed.

(** C2. A returned status has available true only when the lookup
    succeeded with an available [backupMeta] whose two counts are equal; a
    status returned on any other path (lookup not found, other lookup
    error, lookup of an unavailable or incomplete backup) has available
    false. In particular an unavailable [backupMeta] gives available
    false. *)
Theorem available_only_after_verified_lookup h backup status :
  stateUnavailableHandler h backup = Ok status ->
  (Available status = true <->
   exists deployment client statusBackup backupMeta,
     getArangoDeploymentObject h backup = Ok deployment /\
     arangoClientFactory h deployment backup = Ok client /\
     Backup (Status backup) = Some statusBackup /\
     Get client (driver.ID statusBackup) = Ok backupMeta /\
     driver.Available backupMeta = true /\
     driver.NumberOfDBServers backupMeta
     = driver.NumberOfPiecesPresent backupMeta) /\
  (forall deployment client statusBackup,
     getArangoDeploymentObject h backup = Ok deployment ->
     arangoClientFactory h deployment backup = Ok client ->
     Backup (Status backup) = Some statusBackup ->
     match Get client (driver.ID statusBackup) with
     | Err _ => Available status = false
     | Ok backupMeta =>
       driver.Available backupMeta = false \/
       driver.NumberOfDBServers backupMeta
       <> driver.NumberOfPiecesPresent backupMeta ->
       Available status = false
     end).
Proof.
  intros Hrun.
  destruct (getArangoDeploymentObject h backup) as [deployment|e1]
    eqn:Hdeployment;
    [|unfold stateUnavailableHandler in Hrun;
      rewrite Hdeployment in Hrun; discriminate].
  destruct (arangoClientFactory h deployment backup) as [client|e2]
    eqn:Hclient;
    [|unfold stateUnavailableHandler in Hrun;
      rewrite Hdeployment, Hclient in Hrun; discriminate].
  destruct (Backup (Status backup)) as [statusBackup|] eqn:Hstored;
    [|unfold stateUnavailableHandler in Hrun;
      rewrite Hdeployment, Hclient, Hstored in Hrun; discriminate].
  rewrite (handler_after_lookup _ _ _ _ _ Hdeployment Hclient Hstored)
    in Hrun.
  split.
  - split.
    + intros Htrue.
      exists deployment, client, statusBackup.
      destruct (Get client (driver.ID statusBackup)) as [backupMeta|err].
      * exists backupMeta.
        destruct (negb _ || negb _) eqn:Htest.
        -- injection Hrun as <-. discriminate Htrue.
        -- apply incomplete_test in Htest. destruct Htest. done.
      * destruct (driver.IsNotFound err);
          injection Hrun as <-; discriminate Htrue.
    + intros (deployment' & client' & statusBackup' & backupMeta
              & Hd & Hc & Hs & Hget & Hcomplete).
      assert (deployment' = deployment) as -> by congruence.
      assert (client' = client) as -> by congruence.
      assert (statusBackup' = statusBackup) as -> by congruence.
      rewrite Hget in Hrun.
      apply incomplete_test in Hcomplete. rewrite Hcomplete in Hrun.
      injection Hrun as <-. reflexivity.
  - intros deployment' client' statusBackup' Hd Hc Hs.
    assert (deployment' = deployment) as -> by congruence.
    assert (client' = client) as -> by congruence.
    assert (statusBackup' = statusBackup) as -> by congruence.
    destruct (Get client (driver.ID statusBackup)) as [backupMeta|err].
    + intros Hincomplete.
      destruct (negb _ || negb _) eqn:Htest.
      * injection Hrun as <-. reflexivity.
      * apply incomplete_test in Htest. destruct Htest as [Hav Heq].
        destruct Hincomplete; congruence.
    + destruct (driver.IsNotFound err); injection Hrun as <-; reflexivity.
Qed.

(** Monotonic safety on an unavailable backup with all three pieces. *)
Lemma available_only_after_verified_lookup_witness :
  exists status,
    stateUnavailableHandler
      (fixtures.reachable (Ok (fixtures.meta false 3 3)))
      (fixtures.unavailableBackup (Some (fixtures.meta true 3 3)))
    = Ok status /\
    Available status = false.
Proof.
  eexists. split; [reflexivity|].
  pose proof (available_only_after_verified_lookup
                (fixtures.reachable (Ok (fixtures.meta false 3 3)))
                (fixtures.unavailableBackup (Some (fixtures.meta true 3 3)))
                _ eq_refl) as [_ Hother].
  exact (Hother fixtures.theDeployment
                (fixtures.answering (Ok (fixtures.meta false 3 3)))
                (fixtures.meta true 3 3)
                eq_refl eq_refl eq_refl (or_introl eq_refl)).
Defined.

(** C3. When the lookup reports not-found, the handler returns a status
    with state Deleted and available false, whatever snapshot the record
    held (the snapshot itself is kept as it was). *)
Theorem lookup_not_found_deletes
    h backup deployment client statusBackup err :
  getArangoDeploymentObject h backup = Ok deployment ->
  arangoClientFactory h deployment backup = Ok client ->
  Backup (Status backup) = Some statusBackup ->
  Get client (driver.ID statusBackup) = Err err ->
  driver.IsNotFound err = true ->
  exists status,
    stateUnavailableHandler h backup = Ok status /\
    State status = ArangoBackupStateDeleted /\
    Available status = false /\
    Backup status = Backup (Status backup).
Proof.
  intros Hdeployment Hclient Hstored Hget Hnotfound.
  rewrite (handler_after_lookup _ _ _ _ _ Hdeployment Hclient Hstored),
    Hget, Hnotfound.
  eexists. split; [reflexivity|]. done.
Qed.

Lemma lookup_not_found_deletes_witness :
  exists status,
    stateUnavailableHandler
      (fixtures.reachable (Err (ArangoError 404)))
      (fixtures.unavailableBackup (Some (fixtures.meta true 3 3)))
    = Ok status /\
    State status = ArangoBackupStateDeleted /\
    Available status = false /\
    Backup status
    = Backup (Status
                (fixtures.unavailableBackup
                   (Some (fixtures.meta true 3 3)))).
Proof.
  apply (lookup_not_found_deletes
           (fixtures.reachable (Err (ArangoError 404)))
           (fixtures.unavailableBackup (Some (fixtures.meta true 3 3)))
           fixtures.theDeployment
           (fixtures.answering (Err (ArangoError 404)))
           (fixtures.meta true 3 3) (ArangoError 404));
    reflexivity.
Defined.

(** C5. When the lookup fails with an error other than not-found, the
    returned status is the record's status with available set to false and
    nothing else changed: a record in state Unavailable stays in it, and
    the stored snapshot is the one the record had. *)
Theorem lookup_other_error_only_clears_available
    h backup deployment client statusBackup err :
  getArangoDeploymentObject h backup = Ok deployment ->
  arangoClientFactory h deployment backup = Ok client ->
  Backup (Status backup) = Some statusBackup ->
  Get client (driver.ID statusBackup) = Err err ->
  driver.IsNotFound err = false ->
  exists status,
    stateUnavailableHandler h backup = Ok status /\
    Available status = false /\
    State status = State (Status backup) /\
    Message status = Message (Status backup) /\
    Backup status = Backup (Status backup) /\
    (State (Status backup) = ArangoBackupStateUnavailable ->
     State status = ArangoBackupStateUnavailable).
Proof.
  intros Hdeployment Hclient Hstored Hget Hother.
  rewrite (handler_after_lookup _ _ _ _ _ Hdeployment Hclient Hstored),
    Hget, Hother.
  eexists. split; [reflexivity|]. cbn. done.
Qed.

Lemma lookup_other_error_only_clears_available_witness :
  exists status,
    stateUnavailableHandler
      (fixtures.reachable (Err (ArangoError 503)))
      (fixtures.unavailableBackup (Some (fixtures.meta true 3 3)))
    = Ok status /\
    Available status = false /\
    State status = ArangoBackupStateUnavailable /\
    Message status = "" /\
    Backup status = Some (fixtures.meta true 3 3) /\
    (ArangoBackupStateUnavailable = ArangoBackupStateUnavailable ->
     State status = ArangoBackupStateUnavailable).
Proof.
  apply (lookup_other_error_only_clears_available
           (fixtures.reachable (Err (ArangoError 503)))
           (fixtures.unavailableBackup (Some (fixtures.meta true 3 3)))
           fixtures.theDeployment
           (fixtures.answering (Err (ArangoError 503)))
           (fixtures.meta true 3 3) (ArangoError 503));
    reflexivity.
Defined.

(** C4, counterexample. The client is obtained before the stored backup is
    looked at: with a failing client factory a record without a stored
    backup yields an error of kind Temporary. *)
Lemma missing_backup_behind_client_failure :
  stateUnavailableHandler fixtures.unreachable
    (fixtures.unavailableBackup None)
  = Err (temporaryError (errorString "connection refused")) /\
  classify (temporaryError (errorString "connection refused"))
  = Some Temporary /\
  ~ missing_backup_always_fatal.
Proof.
  split; [reflexivity|]. split; [reflexivity|].
  intros Hclaim.
  destruct (Hclaim fixtures.unreachable (fixtures.unavailableBackup None)
                   eq_refl eq_refl) as (err & Hrun & Hkind).
  cbv in Hrun. injection Hrun as <-. discriminate Hkind.
Qed.

(** C4, amended. Once the deployment is resolved and the client obtained,
    a record without a stored backup makes the handler return the Fatal
    error about the missing field: not a Temporary error and not a
    status. *)
Theorem missing_backup_is_fatal h backup deployment client :
  getArangoDeploymentObject h backup = Ok deployment ->
  arangoClientFactory h deployment backup = Ok client ->
  Backup (Status backup) = None ->
  stateUnavailableHandler h backup
  = Err (fatalError "missing field .status.backup") /\
  classify (fatalError "missing field .status.backup") = Some Fatal /\
  classify (fatalError "missing field .status.backup") <> Some Temporary /\
  (forall status, stateUnavailableHandler h backup <> Ok status).
Proof.
  intros Hdeployment Hclient Hstored.
  assert (stateUnavailableHandler h backup
          = Err (fatalError "missing field .status.backup")) as Hrun.
  { unfold stateUnavailableHandler.
    rewrite Hdeployment, Hclient, Hstored. reflexivity. }
  rewrite Hrun. repeat split; try done.
Qed.

Lemma missing_backup_is_fatal_witness :
  stateUnavailableHandler
    (fixtures.reachable (Ok (fixtures.meta true 3 3)))
    (fixtures.unavailableBackup None)
  = Err (fatalError "missing field .status.backup") /\
  classify (fatalError "missing field .status.backup") = Some Fatal /\
  classify (fatalError "missing field .status.backup") <> Some Temporary /\
  (forall status,
     stateUnavailableHandler
       (fixtures.reachable (Ok (fixtures.meta true 3 3)))
       (fixtures.unavailableBackup None)
     <> Ok status).
Proof.
  apply (missing_backup_is_fatal
           (fixtures.reachable (Ok (fixtures.meta true 3 3)))
           (fixtures.unavailableBackup None)
           fixtures.theDeployment
           (fixtures.answering (Ok (fixtures.meta true 3 3))));
    reflexivity.
Defined.

End backup_properties.

(** * Properties of the ServiceMonitor reconciler *)
Module resources_properties.
Import coreosv1 clientv1 resources statements.

Section Reconciler.
Context {W : Type} {I : Imports W}.

(** Obtaining the monitoring client makes no call and leaves the cluster
    and the receiver's context as they are. *)
Lemma EnsureMonitoringClient_frame (s : Exec W) :
  calls (EnsureMonitoringClient s).2 = calls s /\
  cluster (EnsureMonitoringClient s).2 = cluster s /\
  context (receiver (EnsureMonitoringClient s).2) = context (receiver s).
Proof.
  unfold EnsureMonitoringClient, bind, getReceiver, getCluster, ret,
    setMonitoringClient.
  destruct (monitoringClient (receiver s)); [done|].
  destruct (InClusterConfig (cluster s)) as [restConfig|]; [|done].
  destruct (NewForConfig restConfig); done.
Qed.

Lemma makeEndpoint_frame (isSecure : bool) (s : Exec W) :
  (makeEndpoint isSecure s).2 = s.
Proof. unfold makeEndpoint. by destruct isSecure. Qed.

(** Every invocation goes one of the six ways of [Run]. *)
Lemma EnsureServiceMonitor_run (r : Resources W) (w : W) :
  Run r w (outcome r w) (trace r w).
Proof.
  unfold outcome, trace.
  destruct (EnsureServiceMonitor (start r w)) as [res final] eqn:Hrun.
  cbn [fst snd].
  unfold EnsureServiceMonitor, bind, getReceiver in Hrun.
  cbn [start receiver] in Hrun.
  pose proof (EnsureMonitoringClient_frame (start r w))
    as (Hcalls & Hcluster & Hcontext).
  pose proof (eq_refl : client r w = client r w) as Hclient.
  unfold client at 2 in Hclient.
  destruct (EnsureMonitoringClient (start r w)) as [mc s1].
  cbn [fst snd start calls cluster receiver] in *.
  fold (wantMetrics r) (namespace r) (serviceMonitorName r) in Hrun.
  destruct mc as [mClient|err].
  - unfold call in Hrun. rewrite Hcluster, Hcalls in Hrun.
    pose proof (eq_refl : observed mClient r w = observed mClient r w)
      as Hobserved.
    unfold observed at 2 in Hobserved.
    destruct (Get _ _ w) as [got w1]. cbn [fst] in Hobserved.
    cbn [app cluster calls receiver] in Hrun.
    destruct got as [found|err].
    + destruct (wantMetrics r) eqn:Hwant.
      * injection Hrun as <- <-. cbn. by eapply RunPresentWanted.
      * cbn [cluster calls receiver app] in Hrun.
        destruct (Delete _ _ w1) as [answer w2].
        destruct answer as [failure|]; injection Hrun as <- <-; cbn.
        -- by eapply (RunDelete r w mClient found (Some failure)).
        -- by eapply (RunDelete r w mClient found None).
    + destruct (IsNotFound err) eqn:Hnotfound.
      * destruct (wantMetrics r) eqn:Hwant; cbn [negb] in Hrun.
        -- pose proof (makeEndpoint_frame
                         (api.IsSecure (GetSpec (context r)))
                         {| receiver := receiver s1; cluster := w1;
                            calls := [CallGet (namespace r)
                                        (serviceMonitorName r)
                                        (Err err)] |}) as Hframe.
           destruct (makeEndpoint _ _) as [endpoint s2].
           cbn [snd] in Hframe. subst s2.
           cbn [cluster calls receiver app] in Hrun.
           destruct (Create _ _ w1) as [answer w2].
           destruct answer as [created|failure];
             injection Hrun as <- <-; cbn.
           ++ by eapply (RunCreate r w mClient err _ (Ok created)).
           ++ by eapply (RunCreate r w mClient err _ (Err failure)).
        -- injection Hrun as <- <-. cbn. by eapply RunAbsentUnwanted.
      * injection Hrun as <- <-. cbn. by eapply RunGetFailed.
  - injection Hrun as <- <-. rewrite Hcalls. by apply RunNoClient.
Qed.

(** C10. An invocation makes at most one mutating call. A Create is made
    only when metrics are wanted and the Get answered not-found, and then
    it is the only Create and there is no Delete; a Delete is made only
    when metrics are not wanted and the Get found the resource, and then
    it is the only Delete and there is no Create. *)
Theorem at_most_one_mutating_call (r : Resources W) (w : W) :
  length (List.filter isMutating (trace r w)) <= 1 /\
  (forall c, c ∈ trace r w -> isCreate c = true ->
     wantMetrics r = true /\
     (exists err,
        CallGet (namespace r) (serviceMonitorName r) (Err err)
          ∈ trace r w /\
        IsNotFound err = true) /\
     length (List.filter isCreate (trace r w)) = 1 /\
     List.filter isDelete (trace r w) = []) /\
  (forall c, c ∈ trace r w -> isDelete c = true ->
     wantMetrics r = false /\
     (exists found,
        CallGet (namespace r) (serviceMonitorName r) (Ok found)
          ∈ trace r w) /\
     length (List.filter isDelete (trace r w)) = 1 /\
     List.filter isCreate (trace r w) = []).
Proof.
  destruct (EnsureServiceMonitor_run r w); cbn;
    (split; [lia|]); split; intros c Hin Hkind;
    repeat (apply elem_of_cons in Hin as [->|Hin]);
    try (by apply elem_of_nil in Hin); try discriminate Hkind;
    (split; [assumption|]); (split; [|done]);
    eexists; (try split); try apply list_elem_of_here; assumption.
Qed.

(** C6. When the external state already matches the intent (the Get
    answers not-found and metrics are off, or it answers with the
    resource and metrics are on), the invocation succeeds, its only call
    is that Get, and so it makes no Create and no Delete. *)
Theorem ensure_makes_no_mutating_call_when_satisfied
    (r : Resources W) (w : W) (mClient : MonitoringV1Client W) :
  client r w = Ok mClient ->
  matches mClient r w ->
  outcome r w = None /\
  List.filter isMutating (trace r w) = [] /\
  trace r w
  = [CallGet (namespace r) (serviceMonitorName r) (observed mClient r w)].
Proof.
  intros Hclient Hmatches. unfold matches in Hmatches.
  destruct (EnsureServiceMonitor_run r w)
    as [err Hc|mClient' err Hc Hobs Hnf|mClient' err Hc Hobs Hnf Hwant
        |mClient' err smon answer Hc Hobs Hnf Hwant
        |mClient' found Hc Hobs Hwant|mClient' found answer Hc Hobs Hwant];
    rewrite Hclient in Hc; try discriminate Hc;
    injection Hc as <-; rewrite Hobs in Hmatches |- *;
    try (destruct Hmatches; congruence); try congruence; done.
Qed.

(** C7. The endpoint always has port "exporter" and interval "10s". For a
    secure deployment whose CA secret is read, it has scheme https and a
    TLS configuration that verifies against that certificate; for a
    secure deployment whose CA secret cannot be read, it still is built,
    with scheme https and verification switched off; for a deployment
    that is not secure, it has scheme http and no TLS configuration. *)
Theorem makeEndpoint_by_cases (isSecure : bool) (s : Exec W) :
  let endpoint := (makeEndpoint isSecure s).1 in
  let lookup :=
    GetCASecret (cluster s) (GetNamespace (context (receiver s)))
      (api.GetCASecretName (api.TLS (GetSpec (context (receiver s))))) in
  Port endpoint = "exporter" /\
  Interval endpoint = "10s" /\
  (isSecure = true -> forall cert, lookup = Ok cert ->
     Scheme endpoint = "https" /\
     TLSConfig_ endpoint
     = Some {| CAFile := cert; InsecureSkipVerify := false |}) /\
  (isSecure = true -> forall err, lookup = Err err ->
     Scheme endpoint = "https" /\
     TLSConfig_ endpoint
     = Some {| CAFile := ""; InsecureSkipVerify := true |}) /\
  (isSecure = false ->
     Scheme endpoint = "http" /\ TLSConfig_ endpoint = None).
Proof.
  unfold makeEndpoint, bind, getReceiver, getCluster, ret.
  destruct isSecure; cbn.
  - split; [done|]. split; [done|]. split; [|split; [|done]].
    + intros _ cert Hlookup. by rewrite Hlookup.
    + intros _ err Hlookup. by rewrite Hlookup.
  - repeat split; done.
Qed.

(** C8, amended. When the Create call fails, the invocation returns the
    client's error handed to [maskAny], whatever the failure is: a
    validation or conflict failure is treated like any other. *)
Theorem create_failure_is_masked
    (r : Resources W) (w : W) ns smon (err : error) :
  CallCreate ns smon (Err err) ∈ trace r w ->
  outcome r w = Some (maskAny err).
Proof.
  intros Hin.
  destruct (EnsureServiceMonitor_run r w);
    repeat (apply elem_of_cons in Hin as [Heq|Hin]);
    try (by apply elem_of_nil in Hin); try discriminate Heq.
  injection Heq as _ _ <-. reflexivity.
Qed.

(** C9, amended. When the invocation deletes the resource, it succeeds
    if the Delete call succeeds; if the Delete call fails, for whatever
    reason, a not-found answer included, it returns the client's error
    handed to [maskAny]. *)
Theorem delete_failure_is_masked
    (r : Resources W) (w : W) ns name (answer : option error) :
  CallDelete ns name answer ∈ trace r w ->
  outcome r w = match answer with
                | None => None
                | Some err => Some (maskAny err)
                end.
Proof.
  intros Hin.
  destruct (EnsureServiceMonitor_run r w);
    repeat (apply elem_of_cons in Hin as [Heq|Hin]);
    try (by apply elem_of_nil in Hin); try discriminate Heq.
  injection Heq as _ _ <-. reflexivity.
Qed.

End Reconciler.

Import cluster_fixtures.

(** Absent and not wanted: the second of two runs with metrics off. *)
Lemma ensure_makes_no_mutating_call_when_satisfied_witness :
  let mClient :=
    scripted (Err (StatusError StatusReasonNotFound)) (Ok monitor) None in
  let r := withClient false false mClient in
  outcome r () = None /\
  List.filter isMutating (trace r ()) = [] /\
  trace r () = [CallGet (namespace r) (serviceMonitorName r)
                  (observed mClient r ())].
Proof.
  cbv zeta.
  apply (ensure_makes_no_mutating_call_when_satisfied
           (withClient false false
              (scripted (Err (StatusError StatusReasonNotFound))
                 (Ok monitor) None)) ()).
  - reflexivity.
  - split; reflexivity.
Defined.

(** Present and wanted: one Get, nothing else. *)
Example present_and_wanted :
  trace (withClient true true (scripted (Ok monitor) (Ok monitor) None)) ()
  = [CallGet "default" "cluster-a-exporter" (Ok monitor)].
Proof. reflexivity. Qed.

(** C8, counterexample. The cluster has no monitor, metrics are wanted, and
    the API server rejects the new monitor as invalid. The invocation
    returns that error with a stack annotation and no kind: it is not
    Fatal. *)
Lemma rejected_create_is_not_fatal :
  let r :=
    withClient true false
      (scripted (Err (StatusError StatusReasonNotFound))
         (Err (StatusError StatusReasonInvalid)) None) in
  (exists smon,
     trace r ()
     = [CallGet "default" "cluster-a-exporter"
          (Err (StatusError StatusReasonNotFound));
        CallCreate "default" smon (Err (StatusError StatusReasonInvalid))]) /\
  outcome r () = Some (withStack (StatusError StatusReasonInvalid)) /\
  classify (withStack (StatusError StatusReasonInvalid)) = None /\
  ~ create_failure_classified (I := noSecret).
Proof.
  cbv zeta. split; [eexists; reflexivity|].
  split; [reflexivity|]. split; [reflexivity|].
  intros Hclaim.
  destruct (Hclaim
              (withClient true false
                 (scripted (Err (StatusError StatusReasonNotFound))
                    (Err (StatusError StatusReasonInvalid)) None))
              () "default" _ (StatusError StatusReasonInvalid)
              ltac:(apply list_elem_of_further, list_elem_of_here))
    as (surfaced & Hout & Hkind).
  injection Hout as <-. discriminate Hkind.
Qed.

Lemma create_failure_is_masked_witness :
  outcome
    (withClient true false
       (scripted (Err (StatusError StatusReasonNotFound))
          (Err (StatusError StatusReasonTimeout)) None)) ()
  = Some (maskAny (StatusError StatusReasonTimeout)).
Proof.
  eapply (create_failure_is_masked
            (withClient true false
               (scripted (Err (StatusError StatusReasonNotFound))
                  (Err (StatusError StatusReasonTimeout)) None))
            () "default").
  apply list_elem_of_further, list_elem_of_here.
Defined.

(** C9, counterexample. The Get finds the monitor, metrics are off, and by
    the time of the Delete the monitor is gone: the client answers
    not-found. The invocation returns that error, not success. *)
Lemma delete_miss_is_an_error :
  let r :=
    withClient false false
      (scripted (Ok monitor) (Ok monitor)
         (Some (StatusError StatusReasonNotFound))) in
  trace r ()
  = [CallGet "default" "cluster-a-exporter" (Ok monitor);
     CallDelete "default" "cluster-a-exporter"
       (Some (StatusError StatusReasonNotFound))] /\
  IsNotFound (StatusError StatusReasonNotFound) = true /\
  outcome r () = Some (withStack (StatusError StatusReasonNotFound)) /\
  ~ delete_miss_is_success (I := noSecret).
Proof.
  cbv zeta. split; [reflexivity|]. split; [reflexivity|].
  split; [reflexivity|].
  intros Hclaim.
  specialize (Hclaim
                (withClient false false
                   (scripted (Ok monitor) (Ok monitor)
                      (Some (StatusError StatusReasonNotFound))))
                () "default" "cluster-a-exporter"
                (StatusError StatusReasonNotFound)
                ltac:(apply list_elem_of_further, list_elem_of_here)).
  discriminate Hclaim.
Qed.

Lemma delete_failure_is_masked_witness :
  outcome
    (withClient false false
       (scripted (Ok monitor) (Ok monitor)
          (Some (StatusError StatusReasonNotFound)))) ()
  = Some (maskAny (StatusError StatusReasonNotFound)).
Proof.
  apply (delete_failure_is_masked
           (withClient false false
              (scripted (Ok monitor) (Ok monitor)
                 (Some (StatusError StatusReasonNotFound))))
           () "default" "cluster-a-exporter"
           (Some (StatusError StatusReasonNotFound))).
  apply list_elem_of_further, list_elem_of_here.
Defined.

(** The three endpoints. *)
Example endpoint_verified :
  (makeEndpoint (I := imports (Ok "/etc/ca.crt")) true
     (start (withClient true true (scripted (Ok monitor) (Ok monitor) None))
            ())).1
  = {| Port := "exporter"; Interval := "10s"; Scheme := "https";
       TLSConfig_ := Some {| CAFile := "/etc/ca.crt";
                             InsecureSkipVerify := false |} |}.
Proof. reflexivity. Qed.

Example endpoint_degraded :
  (makeEndpoint true
     (start (withClient true true (scripted (Ok monitor) (Ok monitor) None))
            ())).1
  = {| Port := "exporter"; Interval := "10s"; Scheme := "https";
       TLSConfig_ := Some {| CAFile := "";
                             InsecureSkipVerify := true |} |}.
Proof. reflexivity. Qed.

Example endpoint_plain :
  (makeEndpoint false
     (start (withClient true false (scripted (Ok monitor) (Ok monitor) None))
            ())).1
  = {| Port := "exporter"; Interval := "10s"; Scheme := "http";
       TLSConfig_ := None |}.
Proof. reflexivity. Qed.

Import memory_cluster.

(** Idempotence on the in-memory cluster: an invocation succeeds and leaves
    the monitor present exactly if metrics are wanted; an invocation that
    follows it, with the same intent and no change to the cluster in between,
    succeeds again and makes no Create and no Delete. *)
Theorem ensure_twice_in_memory (context : Context) (w : Cluster) :
  let r := fresh context in
  let first := EnsureServiceMonitor (start r w) in
  first.1 = None /\
  (is_Some (monitors (cluster first.2)
              !! (namespace r, serviceMonitorName r))
   <-> wantMetrics r = true) /\
  outcome (receiver first.2) (cluster first.2) = None /\
  List.filter isMutating (trace (receiver first.2) (cluster first.2)) = [].
Proof.
  cbv zeta.
  unfold outcome, trace, wantMetrics, namespace, serviceMonitorName.
  unfold EnsureServiceMonitor, EnsureMonitoringClient, makeEndpoint, bind,
    call, ret, getReceiver, getCluster, setMonitoringClient, start.
  cbn -[lookup insert delete String.append].
  destruct (monitors w !! _) as [found|] eqn:Hfound;
    destruct (api.IsEnabled _) eqn:Hwant;
    destruct (api.IsSecure (GetSpec context));
    cbn -[lookup insert delete String.append];
    repeat (first [ rewrite Hfound | rewrite Hwant
                  | rewrite lookup_delete_eq | rewrite lookup_insert_eq ];
            cbn -[lookup insert delete String.append]);
    repeat split; done || (by eexists) || by intros [? ?].
Qed.

End resources_properties.

(** * Further properties of the reconciler *)
Module reconciler_more.
Import coreosv1 clientv1 resources statements reconciler_statements.

Section Reconciler.
Context {W : Type} {I : Imports W}.

Lemma holding_cached (r : Resources W) (mClient : MonitoringV1Client W) :
  monitoringClient r = Some mClient -> holding r mClient = r.
Proof. destruct r as [c m]. cbn. by intros ->. Qed.

(** The three outcomes of obtaining the monitoring client. *)
Lemma EnsureMonitoringClient_cases (s : Exec W) :
  (exists mClient,
     monitoringClient (receiver s) = Some mClient /\
     EnsureMonitoringClient s = (Ok mClient, s)) \/
  (exists err,
     monitoringClient (receiver s) = None /\
     (InClusterConfig (cluster s) = Err err \/
      exists restConfig,
        InClusterConfig (cluster s) = Ok restConfig /\
        NewForConfig restConfig = Err err) /\
     EnsureMonitoringClient s = (Err (maskAny err), s)) \/
  (exists restConfig mClient,
     monitoringClient (receiver s) = None /\
     InClusterConfig (cluster s) = Ok restConfig /\
     NewForConfig restConfig = Ok mClient /\
     EnsureMonitoringClient s
     = (Ok mClient,
        {| receiver := holding (receiver s) mClient;
           cluster := cluster s; calls := calls s |})).
Proof.
  unfold EnsureMonitoringClient, bind, getReceiver, getCluster, ret,
    setMonitoringClient, holding.
  destruct (monitoringClient (receiver s)) as [mClient|]; [left; eauto|].
  right.
  destruct (InClusterConfig (cluster s)) as [restConfig|err];
    [|left; eauto 6].
  destruct (NewForConfig restConfig) as [mClient|err] eqn:Hnew.
  - right. by exists restConfig, mClient.
  - left. exists err. eauto 8.
Qed.

(** From a fresh run the client, if obtained, ends up held by the
    receiver, and nothing else changes. *)
Lemma EnsureMonitoringClient_start (r : Resources W) (w : W) :
  match client r w with
  | Ok mClient =>
    EnsureMonitoringClient (start r w)
    = (Ok mClient, start (holding r mClient) w)
  | Err err =>
    EnsureMonitoringClient (start r w) = (Err err, start r w)
  end.
Proof.
  unfold client.
  destruct (EnsureMonitoringClient_cases (start r w))
    as [(mClient & Hheld & ->)
       |[(err & Hnone & _ & ->)
        |(restConfig & mClient & Hnone & _ & _ & ->)]]; cbn.
  - cbn in Hheld. by rewrite (holding_cached _ _ Hheld).
  - done.
  - done.
Qed.

(** [makeEndpoint] reads the receiver's context and the cluster, and
    nothing else of the state. *)
Lemma makeEndpoint_reads (isSecure : bool) (s s' : Exec W) :
  context (receiver s) = context (receiver s') ->
  cluster s = cluster s' ->
  (makeEndpoint isSecure s).1 = (makeEndpoint isSecure s').1.
Proof.
  intros Hcontext Hcluster.
  unfold makeEndpoint, bind, getReceiver, getCluster, ret.
  destruct isSecure; [|done]. cbn. by rewrite Hcontext, Hcluster.
Qed.

(** Every invocation goes one of the ways of [Final]. *)
Lemma EnsureServiceMonitor_final (r : Resources W) (w : W) :
  Final r w (EnsureServiceMonitor (start r w)).1
            (EnsureServiceMonitor (start r w)).2.
Proof.
  destruct (EnsureServiceMonitor (start r w)) as [res final] eqn:Hrun.
  cbn [fst snd].
  unfold EnsureServiceMonitor, bind, getReceiver in Hrun.
  cbn [start receiver] in Hrun.
  pose proof (EnsureMonitoringClient_start r w) as Hclient.
  destruct (client r w) as [mClient|err] eqn:Hc; rewrite Hclient in Hrun.
  - fold (wantMetrics r) (namespace r) (serviceMonitorName r) in Hrun.
    fold (serviceMonitorsOf mClient r) in Hrun.
    unfold call in Hrun. cbn [start cluster calls receiver app] in Hrun.
    destruct (Get _ _ w) as [got w1] eqn:Hget.
    destruct got as [found|err].
    + destruct (wantMetrics r) eqn:Hwant.
      * injection Hrun as <- <-. by eapply FinalPresentWanted.
      * cbn [cluster calls receiver app] in Hrun.
        destruct (Delete _ _ w1) as [answer w2] eqn:Hdelete.
        destruct answer as [failure|]; injection Hrun as <- <-.
        -- by eapply (FinalDelete r w mClient found w1 (Some failure)).
        -- by eapply (FinalDelete r w mClient found w1 None).
    + destruct (IsNotFound err) eqn:Hnotfound.
      * destruct (wantMetrics r) eqn:Hwant; cbn [negb] in Hrun.
        -- match type of Hrun with
           | context [makeEndpoint ?b ?s] =>
             pose proof (resources_properties.makeEndpoint_frame b s)
               as Hframe;
             pose proof (makeEndpoint_reads b s (start r w1) eq_refl eq_refl)
               as Hreads
           end.
           fold (endpointFor r w1) in Hreads.
           destruct (makeEndpoint _ _) as [endpoint s2].
           cbn [fst snd] in Hframe, Hreads. subst s2 endpoint.
           fold (newServiceMonitor r (endpointFor r w1)) in Hrun.
           cbn [cluster calls receiver app] in Hrun.
           destruct (Create _ _ w1) as [answer w2] eqn:Hcreate.
           destruct answer as [created|failure]; injection Hrun as <- <-.
           ++ by eapply (FinalCreate r w mClient err w1 (Ok created)).
           ++ by eapply (FinalCreate r w mClient err w1 (Err failure)).
        -- injection Hrun as <- <-. by eapply FinalAbsentUnwanted.
      * injection Hrun as <- <-. by eapply FinalGetFailed.
  - injection Hrun as <- <-. by apply FinalNoClient.
Qed.


(** X2. When [EnsureMonitoringClient] fails, the state is left exactly as it
    was (no client is stored), the receiver had no client, and the error is
    [maskAny] of the error of [InClusterConfig] or, if that succeeded, of
    [NewForConfig]. *)
Theorem monitoring_client_failure_changes_nothing
    (s : Exec W) (err : error) :
  (EnsureMonitoringClient s).1 = Err err ->
  (EnsureMonitoringClient s).2 = s /\
  monitoringClient (receiver s) = None /\
  exists cause,
    err = maskAny cause /\
    (InClusterConfig (cluster s) = Err cause \/
     exists restConfig,
       InClusterConfig (cluster s) = Ok restConfig /\
       NewForConfig restConfig = Err cause).
Proof.
  intros Hfirst.
  destruct (EnsureMonitoringClient_cases s)
    as [(c & Hheld & Hrun)
       |[(cause & Hnone & Hwhy & Hrun)
        |(restConfig & c & _ & _ & _ & Hrun)]];
    rewrite Hrun in Hfirst |- *; cbn in Hfirst |- *;
    try discriminate Hfirst; injection Hfirst as <-.
  split; [done|]. split; [done|]. by exists cause.
Qed.

(** X3. When the receiver holds no monitoring client and none can be built
    ([InClusterConfig] fails, or [NewForConfig] does), [EnsureServiceMonitor]
    returns that error masked twice, makes no call on the ServiceMonitor
    client and leaves receiver and cluster untouched. *)
Theorem no_client_no_call (r : Resources W) (w : W) (cause : error) :
  monitoringClient r = None ->
  (InClusterConfig w = Err cause \/
   exists restConfig,
     InClusterConfig w = Ok restConfig /\
     NewForConfig restConfig = Err cause) ->
  EnsureServiceMonitor (start r w)
  = (Some (maskAny (maskAny cause)), start r w).
Proof.
  intros Hnone Hwhy.
  assert (client r w = Err (maskAny cause)) as Hclient.
  { unfold client.
    destruct (EnsureMonitoringClient_cases (start r w))
      as [(c & Hheld & _)
         |[(err & _ & Hfails & ->)
          |(restConfig & c & _ & Hconfig & Hnew & _)]];
      cbn [start receiver cluster] in *.
    - congruence.
    - cbn. do 2 f_equal.
      destruct Hwhy as [H1|(cfg1 & H1 & H2)];
        destruct Hfails as [H3|(cfg2 & H3 & H4)]; congruence.
    - destruct Hwhy as [H1|(cfg1 & H1 & H2)]; congruence. }
  pose proof (EnsureServiceMonitor_final r w) as Hfinal.
  destruct (EnsureServiceMonitor (start r w)) as [res final].
  cbn [fst snd] in Hfinal.
  destruct Hfinal as [err Hc|? ? ? Hc|? ? ? Hc|? ? ? ? ? Hc|? ? ? Hc
                     |? ? ? ? ? Hc];
    rewrite Hclient in Hc; try discriminate Hc.
  by injection Hc as <-.
Qed.

(** X4. When the [Get] fails with an error that is not not-found,
    [EnsureServiceMonitor] returns that error masked; the [Get] is its only
    call, so nothing is created or deleted. *)
Theorem get_failure_is_returned
    (r : Resources W) (w w1 : W) (mClient : MonitoringV1Client W)
    (err : error) :
  client r w = Ok mClient ->
  Get (serviceMonitorsOf mClient r) (serviceMonitorName r) w
  = (Err err, w1) ->
  IsNotFound err = false ->
  outcome r w = Some (maskAny err) /\
  trace r w = [CallGet (namespace r) (serviceMonitorName r) (Err err)] /\
  cluster (EnsureServiceMonitor (start r w)).2 = w1.
Proof.
  intros Hclient Hget Hother. unfold outcome, trace.
  destruct (EnsureServiceMonitor_final r w)
    as [? Hc|? ? ? Hc Hg ?|? ? ? Hc Hg ? ?|? ? ? ? ? Hc Hg ? ? ?
       |? ? ? Hc Hg ?|? ? ? ? ? Hc Hg ? ?];
    rewrite Hclient in Hc; try discriminate Hc; injection Hc as <-;
    rewrite Hget in Hg; try discriminate Hg; injection Hg as <- <-;
    try congruence.
  done.
Qed.

(** X5. Whenever a [Create] is called, the monitor handed over is named
    after the deployment, carries the exporter labels, is owned by the
    deployment alone, selects by the selector labels and has exactly one
    endpoint: port "exporter", interval "10s", scheme https with a TLS
    configuration for a secure deployment and http without one otherwise. *)
Theorem created_monitor_is_the_deployments
    (r : Resources W) (w : W) ns smon answer :
  CallCreate ns smon answer ∈ trace r w ->
  let apiObject := GetAPIObject (context r) in
  let isSecure := api.IsSecure (GetSpec (context r)) in
  metav1.Name (ObjectMeta smon) = serviceMonitorName r /\
  metav1.Labels (ObjectMeta smon)
  = LabelsForExporterServiceMonitor (api.GetName apiObject) /\
  metav1.OwnerReferences (ObjectMeta smon) = [api.AsOwner apiObject] /\
  JobLabel (Spec smon) = "k8s-app" /\
  metav1.MatchLabels (Selector (Spec smon))
  = LabelsForExporterServiceMonitorSelector (api.GetName apiObject) /\
  exists endpoint,
    Endpoints (Spec smon) = [endpoint] /\
    Port endpoint = "exporter" /\
    Interval endpoint = "10s" /\
    Scheme endpoint = (if isSecure then "https" else "http") /\
    (TLSConfig_ endpoint = None <-> isSecure = false).
Proof.
  intros Hin. cbv zeta. unfold trace in Hin.
  destruct (EnsureServiceMonitor_final r w); cbn [calls] in Hin;
    repeat (apply elem_of_cons in Hin as [Heq|Hin]);
    try (by apply elem_of_nil in Hin); try discriminate Heq.
  injection Heq as _ -> _.
  cbn. repeat (split; [reflexivity|]).
  eexists. split; [reflexivity|].
  unfold endpointFor, makeEndpoint, bind, getReceiver, getCluster, ret.
  destruct (api.IsSecure _); cbn; repeat split; done.
Qed.

(** X6. Every call of an invocation is about the deployment's own monitor,
    in the deployment's namespace: no other resource is read, created or
    deleted. *)
Theorem calls_address_own_monitor (r : Resources W) (w : W) :
  Forall (addresses r) (trace r w).
Proof.
  unfold trace.
  destruct (EnsureServiceMonitor_final r w); cbn [calls start];
    repeat constructor.
Qed.

(** X7. An invocation never changes the receiver's context; the receiver
    ends up holding the monitoring client if one was obtained and is the
    same as before if not. *)
Theorem receiver_keeps_context (r : Resources W) (w : W) :
  let r' := receiver (EnsureServiceMonitor (start r w)).2 in
  context r' = context r /\
  match client r w with
  | Ok mClient => monitoringClient r' = Some mClient
  | Err _ => r' = r
  end.
Proof.
  cbv zeta.
  destruct (EnsureServiceMonitor_final r w) as [? Hc|? ? ? Hc|? ? ? Hc
                                               |? ? ? ? ? Hc|? ? ? Hc
                                               |? ? ? ? ? Hc];
    rewrite Hc; done.
Qed.

(** X8. An error that [EnsureServiceMonitor] returns is always [maskAny] of
    an error reported to it: the failure to obtain the monitoring client
    (then no call was made), or the error that its last call was answered
    with. *)
Theorem returned_error_is_reported (r : Resources W) (w : W) (err : error) :
  outcome r w = Some err ->
  exists cause,
    err = maskAny cause /\
    (client r w = Err cause /\ trace r w = [] \/
     exists c, last (trace r w) = Some c /\ failureOf c = Some cause).
Proof.
  unfold outcome, trace. intros Hout.
  destruct (EnsureServiceMonitor_final r w)
    as [cause Hc|mClient cause w1 Hc Hg Hnf|? ? ? ? ? ? ?
       |mClient e w1 answer w2 Hc Hg Hnf Hwant Hcreate|? ? ? ? ? ?
       |mClient found w1 answer w2 Hc Hg Hwant Hdelete];
    try discriminate Hout.
  - injection Hout as <-. exists cause. split; [done|]. by left.
  - injection Hout as <-. exists cause. split; [done|]. right.
    eexists. by split.
  - destruct answer as [created|failure]; [discriminate Hout|].
    injection Hout as <-. exists failure. split; [done|]. right.
    eexists. by split.
  - destruct answer as [failure|]; [|discriminate Hout].
    injection Hout as <-. exists failure. split; [done|]. right.
    eexists. by split.
Qed.

(** A run in which the client is there and the state matches the intent
    succeeds after its [Get]. *)
Lemma matching_run_is_quiet
    (r : Resources W) (w : W) (mClient : MonitoringV1Client W) :
  client r w = Ok mClient ->
  matches mClient r w ->
  outcome r w = None /\ List.filter isMutating (trace r w) = [].
Proof.
  intros Hclient Hmatches. unfold matches in Hmatches.
  destruct (resources_properties.EnsureServiceMonitor_run r w)
    as [? Hc|? ? Hc Hobs ?|? ? Hc Hobs ? ?|? ? ? ? Hc Hobs ? ?
       |? ? Hc Hobs ?|? ? ? Hc Hobs ?];
    rewrite Hclient in Hc; try discriminate Hc;
    injection Hc as <-; rewrite Hobs in Hmatches;
    try (destruct Hmatches; congruence); try congruence; done.
Qed.

(** X9. With a ServiceMonitor client that nobody else disturbs, a successful
    invocation leaves the cluster matching the intent (the monitor is found
    exactly if metrics are wanted), and the invocation that follows it
    succeeds without a [Create] or a [Delete]. *)
Theorem success_converges
    (r : Resources W) (w : W) (mClient : MonitoringV1Client W) :
  client r w = Ok mClient ->
  Undisturbed (serviceMonitorsOf mClient r) ->
  outcome r w = None ->
  let final := (EnsureServiceMonitor (start r w)).2 in
  matches mClient r (cluster final) /\
  outcome (receiver final) (cluster final) = None /\
  List.filter isMutating (trace (receiver final) (cluster final)) = [].
Proof.
  intros Hclient [Hreads Hcreated Hdeleted] Hout. cbv zeta.
  unfold outcome in Hout.
  assert (forall final,
            receiver final = holding r mClient ->
            matches mClient r (cluster final) ->
            matches mClient r (cluster final) /\
            outcome (receiver final) (cluster final) = None /\
            List.filter isMutating
              (trace (receiver final) (cluster final)) = []) as Hquiet.
  { intros final Hreceiver Hmatches. split; [done|].
    rewrite Hreceiver.
    apply (matching_run_is_quiet _ _ mClient); [reflexivity|].
    exact Hmatches. }
  destruct (EnsureServiceMonitor_final r w)
    as [? Hc|? ? ? Hc|mClient' err w1 Hc Hg Hnf Hwant
       |mClient' err w1 answer w2 Hc Hg Hnf Hwant Hcreate
       |mClient' found w1 Hc Hg Hwant
       |mClient' found w1 answer w2 Hc Hg Hwant Hdelete];
    try discriminate Hout;
    rewrite Hclient in Hc; injection Hc as <-;
    pose proof (Hreads (serviceMonitorName r) w) as Hsame;
    rewrite Hg in Hsame; cbn in Hsame; subst w1;
    apply Hquiet; try reflexivity; unfold matches, observed;
    fold (serviceMonitorsOf mClient r); cbn [cluster].
  - by rewrite Hg.
  - destruct answer as [created|failure]; [|discriminate Hout].
    destruct (Hcreated _ _ _ _ Hcreate) as [found Hfound].
    cbn in Hfound. by rewrite Hfound.
  - by rewrite Hg.
  - destruct answer as [failure|]; [discriminate Hout|].
    destruct (Hdeleted _ _ _ Hdelete) as (err & Hgone & Hnf).
    by rewrite Hgone.
Qed.

(** X10. The selector labels are among the monitor's own labels, with the
    same values. *)
Theorem selector_labels_are_monitor_labels (deploymentName : string) :
  LabelsForExporterServiceMonitorSelector deploymentName
  ⊆ LabelsForExporterServiceMonitor deploymentName.
Proof.
  unfold LabelsForExporterServiceMonitorSelector,
    LabelsForExporterServiceMonitor.
  apply insert_mono, map_subseteq_spec. intros key value Hkey.
  apply lookup_singleton_Some in Hkey as [<- <-].
  apply lookup_insert_eq.
Qed.

(** X11. Both label sets carry the deployment's name under the deployment
    key, so the labels of two deployments are equal only if the deployments
    have the same name. *)
Theorem labels_identify_deployment (d1 d2 : string) :
  LabelsForExporterServiceMonitor d1 !! LabelKeyArangoDeployment = Some d1 /\
  LabelsForExporterServiceMonitorSelector d1 !! LabelKeyArangoDeployment
  = Some d1 /\
  (LabelsForExporterServiceMonitor d1 = LabelsForExporterServiceMonitor d2 ->
   d1 = d2) /\
  (LabelsForExporterServiceMonitorSelector d1
   = LabelsForExporterServiceMonitorSelector d2 -> d1 = d2).
Proof.
  assert (forall d,
            LabelsForExporterServiceMonitor d !! LabelKeyArangoDeployment
            = Some d) as Hlabels
    by (intros d; apply lookup_insert_eq).
  assert (forall d,
            LabelsForExporterServiceMonitorSelector d
            !! LabelKeyArangoDeployment = Some d) as Hselector
    by (intros d; apply lookup_insert_eq).
  split; [apply Hlabels|]. split; [apply Hselector|]. split; intros Heq.
  - pose proof (Hlabels d1) as H1. rewrite Heq, Hlabels in H1. congruence.
  - pose proof (Hselector d1) as H1. rewrite Heq, Hselector in H1.
    congruence.
Qed.

End Reconciler.

Import cluster_fixtures more_fixtures.

Lemma monitoring_client_failure_changes_nothing_witness :
  (EnsureMonitoringClient (start (clientless true false) ())).2
  = start (clientless true false) () /\
  monitoringClient (receiver (start (clientless true false) ())) = None /\
  exists cause,
    withStack (errorString "not running in a pod") = maskAny cause /\
    (InClusterConfig (cluster (start (clientless true false) ()))
     = Err cause \/
     exists restConfig,
       InClusterConfig (cluster (start (clientless true false) ()))
       = Ok restConfig /\
       NewForConfig restConfig = Err cause).
Proof.
  apply (monitoring_client_failure_changes_nothing
           (start (clientless true false) ())
           (withStack (errorString "not running in a pod"))).
  reflexivity.
Defined.

Lemma no_client_no_call_witness :
  EnsureServiceMonitor (start (clientless true false) ())
  = (Some (maskAny (maskAny (errorString "not running in a pod"))),
     start (clientless true false) ()).
Proof.
  apply (no_client_no_call (clientless true false) ()
           (errorString "not running in a pod")).
  - reflexivity.
  - left. reflexivity.
Defined.

Lemma get_failure_is_returned_witness :
  let mClient :=
    scripted (Err (StatusError StatusReasonTimeout)) (Ok monitor) None in
  let r := withClient true false mClient in
  outcome r () = Some (maskAny (StatusError StatusReasonTimeout)) /\
  trace r ()
  = [CallGet (namespace r) (serviceMonitorName r)
       (Err (StatusError StatusReasonTimeout))] /\
  cluster (EnsureServiceMonitor (start r ())).2 = ().
Proof.
  cbv zeta.
  apply (get_failure_is_returned
           (withClient true false
              (scripted (Err (StatusError StatusReasonTimeout))
                 (Ok monitor) None))
           () ()
           (scripted (Err (StatusError StatusReasonTimeout))
              (Ok monitor) None)
           (StatusError StatusReasonTimeout));
    reflexivity.
Defined.

(** The monitor created for a secure deployment whose CA secret cannot be
    read. *)
Lemma created_monitor_is_the_deployments_witness :
  let r :=
    withClient true true
      (scripted (Err (StatusError StatusReasonNotFound)) (Ok monitor) None) in
  let smon :=
    newServiceMonitor r
      {| Port := "exporter"; Interval := "10s"; Scheme := "https";
         TLSConfig_ := Some {| CAFile := "";
                               InsecureSkipVerify := true |} |} in
  CallCreate "default" smon (Ok monitor) ∈ trace r () /\
  metav1.Name (ObjectMeta smon) = "cluster-a-exporter" /\
  exists endpoint,
    Endpoints (Spec smon) = [endpoint] /\
    Scheme endpoint = "https" /\
    (TLSConfig_ endpoint = None <-> true = false).
Proof.
  cbv zeta.
  assert (CallCreate "default"
            (newServiceMonitor
               (withClient true true
                  (scripted (Err (StatusError StatusReasonNotFound))
                     (Ok monitor) None))
               {| Port := "exporter"; Interval := "10s"; Scheme := "https";
                  TLSConfig_ := Some {| CAFile := "";
                                        InsecureSkipVerify := true |} |})
            (Ok monitor)
          ∈ trace
              (withClient true true
                 (scripted (Err (StatusError StatusReasonNotFound))
                    (Ok monitor) None)) ()) as Hin
    by apply list_elem_of_further, list_elem_of_here.
  split; [exact Hin|].
  destruct (created_monitor_is_the_deployments _ _ _ _ _ Hin)
    as (Hname & _ & _ & _ & _ & endpoint & Hone & _ & _ & Hscheme & Htls).
  split; [exact Hname|].
  exists endpoint. split; [exact Hone|]. split; [exact Hscheme|exact Htls].
Defined.

Lemma returned_error_is_reported_witness :
  let r :=
    withClient true false
      (scripted (Err (StatusError StatusReasonNotFound))
         (Err (StatusError StatusReasonAlreadyExists)) None) in
  exists cause,
    withStack (StatusError StatusReasonAlreadyExists) = maskAny cause /\
    (client r () = Err cause /\ trace r () = [] \/
     exists c, last (trace r ()) = Some c /\ failureOf c = Some cause).
Proof.
  cbv zeta.
  apply (returned_error_is_reported
           (withClient true false
              (scripted (Err (StatusError StatusReasonNotFound))
                 (Err (StatusError StatusReasonAlreadyExists)) None)) ()).
  reflexivity.
Defined.

Import memory_cluster.


(** The in-memory cluster is a client that nobody else disturbs. *)
Lemma memory_cluster_undisturbed (ns : string) :
  Undisturbed (serviceMonitors ns).
Proof.
  split.
  - intros name w. cbn. by destruct (monitors w !! (ns, name)).
  - intros smon w created w'. cbn.
    destruct (monitors w !! _); [discriminate|].
    intros [= _ <-]. cbn. rewrite lookup_insert_eq. by eexists.
  - intros name w w'. cbn.
    destruct (monitors w !! (ns, name)); [|discriminate].
    intros [= <-]. cbn. rewrite lookup_delete_eq. by eexists.
Qed.

(** Metrics switched on for an empty cluster: the monitor is created, and
    the next invocation finds it and leaves it alone. *)
Lemma success_converges_witness :
  let r := fresh (deployment true false) in
  let final := (EnsureServiceMonitor (start r emptyCluster)).2 in
  matches mClient r (cluster final) /\
  outcome (receiver final) (cluster final) = None /\
  List.filter isMutating (trace (receiver final) (cluster final)) = [].
Proof.
  cbv zeta.
  apply (success_converges (fresh (deployment true false)) emptyCluster
           mClient).
  - reflexivity.
  - apply memory_cluster_undisturbed.
  - reflexivity.
Defined.

Section Toggle.
Context {W : Type} {I : Imports W}.

(** With an undisturbed client, a successful invocation ends with the
    receiver holding the client and the cluster matching the intent. *)
Lemma success_leaves_match
    (r : Resources W) (w : W) (mClient : MonitoringV1Client W) :
  client r w = Ok mClient ->
  Undisturbed (serviceMonitorsOf mClient r) ->
  outcome r w = None ->
  receiver (EnsureServiceMonitor (start r w)).2 = holding r mClient /\
  matches mClient r (cluster (EnsureServiceMonitor (start r w)).2).
Proof.
  intros Hclient [Hreads Hcreated Hdeleted] Hout. unfold outcome in Hout.
  destruct (EnsureServiceMonitor_final r w)
    as [? Hc|? ? ? Hc|mClient' err w1 Hc Hg Hnf Hwant
       |mClient' err w1 answer w2 Hc Hg Hnf Hwant Hcreate
       |mClient' found w1 Hc Hg Hwant
       |mClient' found w1 answer w2 Hc Hg Hwant Hdelete];
    try discriminate Hout;
    rewrite Hclient in Hc; injection Hc as <-;
    pose proof (Hreads (serviceMonitorName r) w) as Hsame;
    rewrite Hg in Hsame; cbn in Hsame; subst w1;
    (split; [reflexivity|]); unfold matches, observed;
    fold (serviceMonitorsOf mClient r); cbn [cluster].
  - by rewrite Hg.
  - destruct answer as [created|failure]; [|discriminate Hout].
    destruct (Hcreated _ _ _ _ Hcreate) as [found Hfound].
    cbn in Hfound. by rewrite Hfound.
  - by rewrite Hg.
  - destruct answer as [failure|]; [discriminate Hout|].
    destruct (Hdeleted _ _ _ Hdelete) as (err & Hgone & Hnf).
    by rewrite Hgone.
Qed.

(** X15. With a ServiceMonitor client that nobody else disturbs: after a
    successful invocation, an invocation for the same deployment with
    metrics switched the other way makes exactly two calls, the [Get] and
    then the one mutating call that undoes the first state: a [Delete] if
    metrics were on, a [Create] if they were off. *)
Theorem toggled_intent_is_followed
    (r : Resources W) (w : W) (mClient : MonitoringV1Client W) :
  client r w = Ok mClient ->
  Undisturbed (serviceMonitorsOf mClient r) ->
  outcome r w = None ->
  let final := (EnsureServiceMonitor (start r w)).2 in
  let r' := withMetrics (negb (wantMetrics r)) (receiver final) in
  exists c1 c2,
    trace r' (cluster final) = [c1; c2] /\
    isMutating c1 = false /\
    (if wantMetrics r then isDelete c2 else isCreate c2) = true.
Proof.
  intros Hclient Hlaws Hout. cbv zeta.
  destruct (success_leaves_match r w mClient Hclient Hlaws Hout)
    as [-> Hmatches].
  set (w' := cluster (EnsureServiceMonitor (start r w)).2) in *.
  set (r' := withMetrics (negb (wantMetrics r)) (holding r mClient)).
  assert (client r' w' = Ok mClient) as Hclient' by reflexivity.
  assert (observed mClient r' w' = observed mClient r w') as Hobserved
    by reflexivity.
  assert (wantMetrics r' = negb (wantMetrics r)) as Hwant' by reflexivity.
  unfold matches in Hmatches. rewrite <- Hobserved in Hmatches.
  destruct (resources_properties.EnsureServiceMonitor_run r' w')
    as [? Hc|? ? Hc Hobs Hnf|? ? Hc Hobs Hnf Hwant|? ? ? ? Hc Hobs Hnf Hwant
       |? ? Hc Hobs Hwant|? ? ? Hc Hobs Hwant];
    rewrite Hclient' in Hc; try discriminate Hc; injection Hc as <-;
    rewrite Hobs in Hmatches; try rewrite Hwant' in Hwant.
  - destruct Hmatches; congruence.
  - destruct Hmatches as [_ Hoff]. rewrite Hoff in Hwant. discriminate.
  - destruct Hmatches as [_ ->]. eexists _, _. by split.
  - rewrite Hmatches in Hwant. discriminate.
  - rewrite Hmatches. eexists _, _. by split.
Qed.

End Toggle.

(** Metrics on for an empty in-memory cluster, then switched off: the
    second invocation reads the monitor and deletes it. *)
Lemma toggled_intent_is_followed_witness :
  let r := fresh (deployment true false) in
  let final := (EnsureServiceMonitor (start r emptyCluster)).2 in
  let r' := withMetrics (negb (wantMetrics r)) (receiver final) in
  exists c1 c2,
    trace r' (cluster final) = [c1; c2] /\
    isMutating c1 = false /\
    (if wantMetrics r then isDelete c2 else isCreate c2) = true.
Proof.
  cbv zeta.
  apply (toggled_intent_is_followed (fresh (deployment true false))
           emptyCluster mClient).
  - reflexivity.
  - apply memory_cluster_undisturbed.
  - reflexivity.
Defined.

End reconciler_more.

(** * Further properties of the Unavailable handler *)
Module backup_more.
Import backupApi backup statements.

(** X12. The handler fails in exactly three ways, all before the lookup:
    the error of the deployment lookup is passed on as it is, the error of
    the client factory is wrapped as Temporary, and a record without stored
    backup gives the Fatal error about the missing field. Whatever the
    status source answers afterwards, the handler returns a status. *)
Theorem handler_fails_only_before_lookup h backup (err : error) :
  stateUnavailableHandler h backup = Err err <->
  getArangoDeploymentObject h backup = Err err \/
  (exists deployment cause,
     getArangoDeploymentObject h backup = Ok deployment /\
     arangoClientFactory h deployment backup = Err cause /\
     err = temporaryError cause) \/
  (exists deployment client,
     getArangoDeploymentObject h backup = Ok deployment /\
     arangoClientFactory h deployment backup = Ok client /\
     Backup (Status backup) = None /\
     err = fatalError "missing field .status.backup").
Proof.
  unfold stateUnavailableHandler, newTemporaryError, newFatalErrorf.
  destruct (getArangoDeploymentObject h backup) as [deployment|e1].
  - destruct (arangoClientFactory h deployment backup) as [client|e2]
      eqn:Hclient.
    + destruct (Backup (Status backup)) as [statusBackup|].
      * split.
        -- destruct (Get client _) as [backupMeta|e3];
             [destruct (negb _ || negb _)|destruct (driver.IsNotFound e3)];
             discriminate.
        -- intros [H|[(d & c & H1 & H2 & _)|(d & c & _ & _ & H & _)]];
             simplify_eq; congruence.
      * split.
        -- intros [= <-]. right. right. by exists deployment, client.
        -- intros [H|[(d & c & H1 & H2 & _)|(d & c & _ & _ & _ & ->)]];
             simplify_eq; congruence.
    + split.
      * intros [= <-]. right. left. by exists deployment, e2.
      * intros [H|[(d & c & H1 & H2 & ->)|(d & c & H1 & H2 & _)]];
          simplify_eq; congruence.
  - split.
    + intros [= <-]. by left.
    + intros [H|[(d & c & H & _)|(d & c & H & _)]]; by simplify_eq.
Qed.

(** X13. For a record in state Unavailable, a returned status has state
    Ready exactly when it is available, and its state is Unavailable, Ready
    or Deleted: the handler leads to no other state. *)
Theorem ready_exactly_when_available h backup status :
  State (Status backup) = ArangoBackupStateUnavailable ->
  stateUnavailableHandler h backup = Ok status ->
  (State status = ArangoBackupStateReady <-> Available status = true) /\
  (State status = ArangoBackupStateUnavailable \/
   State status = ArangoBackupStateReady \/
   State status = ArangoBackupStateDeleted).
Proof.
  intros Hstate Hrun.
  unfold stateUnavailableHandler in Hrun.
  destruct (getArangoDeploymentObject h backup) as [deployment|];
    [|discriminate].
  destruct (arangoClientFactory h deployment backup) as [client|];
    [|discriminate].
  destruct (Backup (Status backup)) as [statusBackup|]; [|discriminate].
  destruct (Get client _) as [backupMeta|err];
    [destruct (negb _ || negb _)|destruct (driver.IsNotFound err)];
    injection Hrun as <-; cbn; rewrite ?Hstate; split; try split;
    try discriminate; eauto.
Qed.

Lemma ready_exactly_when_available_witness :
  exists status,
    stateUnavailableHandler
      (fixtures.reachable (Err (ArangoError 503)))
      (fixtures.unavailableBackup (Some (fixtures.meta true 3 3)))
    = Ok status /\
    (State status = ArangoBackupStateReady <-> Available status = true) /\
    (State status = ArangoBackupStateUnavailable \/
     State status = ArangoBackupStateReady \/
     State status = ArangoBackupStateDeleted).
Proof.
  eexists. split; [reflexivity|].
  apply (ready_exactly_when_available
           (fixtures.reachable (Err (ArangoError 503)))
           (fixtures.unavailableBackup (Some (fixtures.meta true 3 3))));
    reflexivity.
Defined.

(** X14. The status source is asked about the stored backup's ID only: two
    clients that give the same answer for that ID lead to the same result,
    whatever they answer for other IDs. *)
Theorem only_stored_id_is_looked_up
    h1 h2 backup deployment client1 client2 statusBackup :
  getArangoDeploymentObject h1 backup = Ok deployment ->
  getArangoDeploymentObject h2 backup = Ok deployment ->
  arangoClientFactory h1 deployment backup = Ok client1 ->
  arangoClientFactory h2 deployment backup = Ok client2 ->
  Backup (Status backup) = Some statusBackup ->
  Get client1 (driver.ID statusBackup)
  = Get client2 (driver.ID statusBackup) ->
  stateUnavailableHandler h1 backup = stateUnavailableHandler h2 backup.
Proof.
  intros Hd1 Hd2 Hc1 Hc2 Hstored Hsame.
  rewrite (backup_properties.handler_after_lookup
             _ _ _ _ _ Hd1 Hc1 Hstored),
          (backup_properties.handler_after_lookup
             _ _ _ _ _ Hd2 Hc2 Hstored).
  by rewrite Hsame.
Qed.

Import more_fixtures.

Lemma only_stored_id_is_looked_up_witness :
  stateUnavailableHandler
    (reachableThrough
       (answeringFor "backup-1" (Ok (fixtures.meta true 3 3))
          (Err (ArangoError 404))))
    (fixtures.unavailableBackup (Some (fixtures.meta false 3 1)))
  = stateUnavailableHandler
      (reachableThrough
         (answeringFor "backup-1" (Ok (fixtures.meta true 3 3))
            (Ok (fixtures.meta false 5 0))))
      (fixtures.unavailableBackup (Some (fixtures.meta false 3 1))).
Proof.
  apply (only_stored_id_is_looked_up
           (reachableThrough
              (answeringFor "backup-1" (Ok (fixtures.meta true 3 3))
                 (Err (ArangoError 404))))
           (reachableThrough
              (answeringFor "backup-1" (Ok (fixtures.meta true 3 3))
                 (Ok (fixtures.meta false 5 0))))
           (fixtures.unavailableBackup (Some (fixtures.meta false 3 1)))
           fixtures.theDeployment
           (answeringFor "backup-1" (Ok (fixtures.meta true 3 3))
              (Err (ArangoError 404)))
           (answeringFor "backup-1" (Ok (fixtures.meta true 3 3))
              (Ok (fixtures.meta false 5 0)))
           (fixtures.meta false 3 1));
    reflexivity.
Defined.

(** The deployment lookup's error comes back as it is. *)
Example orphaned_backup :
  stateUnavailableHandler orphaned
    (fixtures.unavailableBackup (Some (fixtures.meta true 3 3)))
  = Err (fatalError "deployment ref is not specified").
Proof. reflexivity. Qed.

End backup_more.
